(** * Serena: tool registry, context/mode policy and MCP adapter

    A shallow embedding of the Python sources

      - [src/serena/tools/__init__.py]     (ToolParameter, Tool, ToolRegistry)
      - [src/serena/config/context_mode.py] (SerenaAgentContext, SerenaAgentMode)
      - [src/serena/agent.py]              (SerenaConfig, SerenaAgent)
      - [src/serena/mcp.py]                (SerenaMCPFactory)
      - [src/serena/constants.py]          (DEFAULT_CONTEXT, DEFAULT_MODES)

    Python dictionaries are association lists in insertion order with the
    update discipline of [dict.__setitem__]; exceptions are an explicit
    result type; logging is an explicit list of emitted records. *)

From Stdlib Require Import List String Ascii ZArith Bool Lia Permutation.
From Stdlib Require Import SpecFloat.
Import ListNotations.

Local Open Scope string_scope.
Local Open Scope list_scope.

(** ** Exceptions and results *)

(** The exception classes the modelled code can raise or observe.  All of
    them derive from [Exception] except [BaseOnly], which stands for the
    classes deriving from [BaseException] alone ([asyncio.CancelledError],
    [KeyboardInterrupt], [SystemExit]).  The payload is [str(e)]. *)
Inductive exn : Type :=
| ValueError (msg : string)
| TypeError (msg : string)
| AttributeError (msg : string)
| OverflowError (msg : string)
| RuntimeError (msg : string)
| NameError (msg : string)
| OSError (msg : string)
| OtherException (msg : string)
| BaseOnly (msg : string).

Definition exn_str (e : exn) : string :=
  match e with
  | ValueError m | TypeError m | AttributeError m | OverflowError m
  | RuntimeError m | NameError m | OSError m | OtherException m
  | BaseOnly m => m
  end.

(** [isinstance(e, Exception)] *)
Definition is_Exception (e : exn) : bool :=
  match e with
  | BaseOnly _ => false
  | _ => true
  end.

Inductive res (A : Type) : Type :=
| Ok (a : A)
| Raise (e : exn).
Arguments Ok {A} a.
Arguments Raise {A} e.

Definition bind {A B : Type} (m : res A) (k : A -> res B) : res B :=
  match m with
  | Ok a => k a
  | Raise e => Raise e
  end.

Notation "x <- m ;; k" := (bind m (fun x => k))
  (at level 61, m at next level, right associativity).

Section MapM.
Context {A B : Type}.
Variable f : A -> res B.

(** [[f(x) for x in l]] where [f] may raise: the first exception wins. *)
Fixpoint mapM (l : list A) : res (list B) :=
  match l with
  | [] => Ok []
  | x :: l' => y <- f x ;; ys <- mapM l' ;; Ok (y :: ys)
  end.
End MapM.

(** ** Python dictionaries (insertion ordered) *)

Module PyDict.
Section Ops.
Context {V : Type}.

Definition t : Type := list (string * V).

(** [d.get(k)] *)
Fixpoint get (k : string) (d : t) : option V :=
  match d with
  | [] => None
  | (k', v) :: d' => if String.eqb k' k then Some v else get k d'
  end.

(** [k in d] *)
Definition has (k : string) (d : t) : bool :=
  match get k d with
  | Some _ => true
  | None => false
  end.

(** [d[k] = v]: an existing key keeps its position, a new key is
    appended. *)
Fixpoint set (k : string) (v : V) (d : t) : t :=
  match d with
  | [] => [(k, v)]
  | (k', v') :: d' =>
      if String.eqb k' k then (k, v) :: d' else (k', v') :: set k v d'
  end.

(** [d.pop(k)] / [del d[k]] for a key that may be absent *)
Fixpoint pop (k : string) (d : t) : t :=
  match d with
  | [] => []
  | (k', v') :: d' =>
      if String.eqb k' k then d' else (k', v') :: pop k d'
  end.

(** [d.update(m)] *)
Definition update (d m : t) : t :=
  fold_left (fun acc kv => set (fst kv) (snd kv) acc) m d.

(** [list(d.keys())], [list(d.values())] *)
Definition keys (d : t) : list string := map fst d.
Definition values (d : t) : list V := map snd d.
End Ops.
Arguments t V : clear implicits.
End PyDict.

(** [x in l] for a list of strings *)
Definition mem (x : string) (l : list string) : bool :=
  existsb (String.eqb x) l.

(** ** JSON values, as produced by [json.loads] *)

#[local] Unset Elimination Schemes.
Inductive json : Type :=
| JNull
| JBool (b : bool)
| JInt (z : Z)
| JFloat (f : spec_float)
| JStr (s : string)
| JArr (items : list json)
| JObj (entries : list (string * json)).
#[local] Set Elimination Schemes.

Definition dict : Type := PyDict.t json.

(** *** [float(v)] on integers

    Python rounds an [int] to the nearest binary64 value (ties to even)
    and raises [OverflowError] when the result is not finite. *)
Definition prec : Z := 53.
Definition emax : Z := 1024.

Definition float_of_Z (z : Z) : res spec_float :=
  match binary_normalize prec emax z 0 false with
  | S754_finite s m e => Ok (S754_finite s m e)
  | S754_zero s => Ok (S754_zero s)
  | _ => Raise (OverflowError "int too large to convert to float")
  end.

(** The binary64 values 0.0, 1.0, 2.0 and 3.0. *)
Definition f0 : spec_float := S754_zero false.
Definition f1 : spec_float := S754_finite false 4503599627370496 (-52).
Definition f2 : spec_float := S754_finite false 4503599627370496 (-51).
Definition f3 : spec_float := S754_finite false 6755399441055744 (-51).

(** [isinstance(v, int)]: [bool] is a subclass of [int]. *)
Definition isinstance_int (v : json) : bool :=
  match v with
  | JInt _ | JBool _ => true
  | _ => false
  end.

(** [float(v)]; the sanitizer only calls it on values that passed
    [isinstance(v, int)]. *)
Definition py_float (v : json) : res json :=
  match v with
  | JInt z => f <- float_of_Z z ;; Ok (JFloat f)
  | JBool b => Ok (JFloat (if b then f1 else f0))
  | JFloat f => Ok (JFloat f)
  | JStr _ => Raise (ValueError "could not convert string to float")
  | _ => Raise (TypeError "float() argument must be a string or a real number")
  end.

(** [x == s] for a string literal [s]: only a string equals a string. *)
Definition is_str (s : string) (x : json) : bool :=
  match x with
  | JStr s' => String.eqb s' s
  | _ => false
  end.

(** ** The schema sanitizer: [SerenaMCPFactory._sanitize_for_openai_tools] *)

Module Sanitizer.

(** [if "multipleOf" not in node: node["multipleOf"] = 1] *)
Definition ensure_multipleOf (node : dict) : dict :=
  if PyDict.has "multipleOf" node then node
  else PyDict.set "multipleOf" (JInt 1) node.

(** [t2 = [x if x != "integer" else "number" for x in t if x != "null"]] *)
Definition strip_union (t : list json) : list json :=
  map (fun x => if is_str "integer" x then JStr "number" else x)
      (filter (fun x => negb (is_str "null" x)) t).

(** The block "handle type" of [walk]. *)
Definition handle_type (node : dict) : dict :=
  match PyDict.get "type" node with
  | Some (JStr t) =>
      if String.eqb t "integer"
      then ensure_multipleOf (PyDict.set "type" (JStr "number") node)
      else node
  | Some (JArr t) =>
      let t2 := strip_union t in
      let t2 := match t2 with [] => [JStr "object"] | _ => t2 end in
      let node' :=
        PyDict.set "type" (match t2 with [x] => x | _ => JArr t2 end) node in
      if existsb (is_str "integer") t || existsb (is_str "number") t2
      then ensure_multipleOf node'
      else node'
  | _ => node
  end.

(** The block "handle enum" of [walk].  [enum_vals and isinstance(enum_vals,
    list)] holds exactly for a non-empty list. *)
Definition handle_enum (node : dict) : res dict :=
  match PyDict.get "enum" node with
  | Some (JArr (v :: vs)) =>
      if forallb isinstance_int (v :: vs) then
        fs <- mapM py_float (v :: vs) ;;
        let node' := PyDict.set "enum" (JArr fs) node in
        match PyDict.get "type" node' with
        | Some t =>
            if is_str "integer" t
            then Ok (ensure_multipleOf (PyDict.set "type" (JStr "number") node'))
            else Ok node'
        | None => Ok node'
        end
      else Ok node
  | _ => Ok node
  end.

Definition structural_keys : list string :=
  ["properties"; "additionalProperties"; "items"].
Definition combinator_keys : list string := ["oneOf"; "anyOf"; "allOf"].
Definition simplified_keys : list string := ["oneOf"; "anyOf"].

(** [item.get("type")]: only dictionaries have [get]. *)
Definition item_type (item : json) : res (option json) :=
  match item with
  | JObj d => Ok (PyDict.get "type" d)
  | _ => Raise (AttributeError "object has no attribute 'get'")
  end.

(** Building [set(types)] hashes every element: lists and dictionaries are
    unhashable. *)
Definition hashable (t : option json) : bool :=
  match t with
  | Some (JArr _) | Some (JObj _) => false
  | _ => true
  end.

Definition opt_is_str (s : string) (t : option json) : bool :=
  match t with
  | Some x => is_str s x
  | None => false
  end.

(** [set(types) == {"integer", "number"}] *)
Definition types_are_integer_number (types : list (option json)) : res bool :=
  if forallb hashable types then
    Ok (existsb (opt_is_str "integer") types
        && existsb (opt_is_str "number") types
        && forallb (fun t => opt_is_str "integer" t || opt_is_str "number" t)
                   types)
  else Raise (TypeError "unhashable type").

(** The statements under [if set(types) == {"integer", "number"}]:
    [merged] is a copy of the first branch retyped as ["number"]; the key
    is popped and [merged] is written over the node.  The source does this
    while it iterates over [node.items()], which the interpreter answers
    with a [RuntimeError] at the next step of the loop whenever the size
    of the dictionary has changed; the model writes the node and goes on.
    The difference is never observed: the test above is false on every
    input (lemmas [no_merge] and [walk_not_integer]). *)
Definition merge_branches (key : string) (items : list json) (node : dict)
  : dict :=
  match items with
  | JObj first :: _ =>
      let merged :=
        ensure_multipleOf (PyDict.set "type" (JStr "number") first) in
      PyDict.update (PyDict.pop key node) merged
  | _ => node
  end.

Section Nested.
(** The recursive call, abstracted so that the loop body can be stated
    (and reasoned about) on its own. *)
Variable walk : json -> res json.

(** One iteration of [for key, value in node.items()].  The children are
    mutated in place by the source; here the walked child is written back
    under its key, which leaves the position of the key unchanged. *)
Definition walk_nested (key : string) (value : json) (node : dict)
  : res dict :=
  if mem key structural_keys then
    match value with
    | JObj _ =>
        value' <- walk value ;; Ok (PyDict.set key value' node)
    | JArr items =>
        items' <- mapM walk items ;;
        Ok (PyDict.set key (JArr items') node)
    | _ => Ok node
    end
  else if mem key combinator_keys then
    match value with
    | JArr items =>
        items' <- mapM walk items ;;
        let node' := PyDict.set key (JArr items') node in
        if mem key simplified_keys && (List.length items' =? 2)%nat then
          types <- mapM item_type items' ;;
          same <- types_are_integer_number types ;;
          if same then Ok (merge_branches key items' node') else Ok node'
        else Ok node'
    | _ => Ok node
    end
  else Ok node.

Fixpoint walk_items (entries : list (string * json)) (node : dict)
  : res dict :=
  match entries with
  | [] => Ok node
  | (key, value) :: rest =>
      node' <- walk_nested key value node ;; walk_items rest node'
  end.
End Nested.

(** [walk(node)].  The loop runs over the entries the node had on entry:
    the two blocks before it only assign the keys ["type"], ["enum"] and
    ["multipleOf"], none of which the loop acts on (lemma
    [handle_keeps_children] below). *)
Fixpoint walk (node : json) : res json :=
  match node with
  | JObj entries =>
      n <- handle_enum (handle_type entries) ;;
      n' <- walk_items walk entries n ;;
      Ok (JObj n')
  | _ => Ok node
  end.

(** [_sanitize_for_openai_tools], on the value [json.loads(schema_json)]
    ([deepcopy] is the identity on immutable trees). *)
Definition sanitize (schema : json) : res json := walk schema.

End Sanitizer.


(** ** Logging *)

Inductive level : Type := DEBUG | INFO | WARNING | ERROR.

Record log_record : Type := mk_log { log_level : level; log_message : string }.

Definition log_debug (m : string) : log_record := mk_log DEBUG m.
Definition log_info (m : string) : log_record := mk_log INFO m.
Definition log_warning (m : string) : log_record := mk_log WARNING m.
Definition log_error (m : string) : log_record := mk_log ERROR m.

(** String concatenation, for f-strings. *)
Infix "^" := String.append (at level 30, right associativity) : string_scope.

(** ** Tools and the registry: [serena/tools/__init__.py] *)

Module Tools.

(** The class stored in [ToolParameter.type].  The first six are the keys
    of [type_mapping]; [PyClass] is any other class, given by its name, its
    instance check and its constructor. *)
Inductive pytype : Type :=
| PyStr | PyInt | PyFloat | PyBool | PyList | PyDict
| PyClass (name : string) (instancecheck : json -> bool)
          (new : json -> res json).

(** [python_type.__name__] *)
Definition type_name (ty : pytype) : string :=
  match ty with
  | PyStr => "str"
  | PyInt => "int"
  | PyFloat => "float"
  | PyBool => "bool"
  | PyList => "list"
  | PyDict => "dict"
  | PyClass n _ _ => n
  end.

(** [isinstance(value, ty)] on the values a call can carry. *)
Definition isinstance (value : json) (ty : pytype) : bool :=
  match ty, value with
  | PyStr, JStr _ => true
  | PyInt, (JInt _ | JBool _) => true
  | PyFloat, JFloat _ => true
  | PyBool, JBool _ => true
  | PyList, JArr _ => true
  | PyDict, JObj _ => true
  | PyClass _ check _, v => check v
  | _, _ => false
  end.

(** [bool(value)] *)
Definition truthy (value : json) : bool :=
  match value with
  | JNull => false
  | JBool b => b
  | JInt z => negb (Z.eqb z 0)
  | JFloat (S754_zero _) => false
  | JFloat _ => true
  | JStr s => negb (String.eqb s "")
  | JArr l => match l with [] => false | _ => true end
  | JObj d => match d with [] => false | _ => true end
  end.

(** [list(value)]: a string yields its characters, a dictionary its keys;
    the scalars are not iterable. *)
Definition list_of (value : json) : res json :=
  match value with
  | JArr l => Ok (JArr l)
  | JStr s =>
      Ok (JArr (map (fun c => JStr (String c EmptyString))
                    (list_ascii_of_string s)))
  | JObj d => Ok (JArr (map JStr (PyDict.keys d)))
  | _ => Raise (TypeError "object is not iterable")
  end.

Record ToolParameter : Type := mk_param {
  param_name : string;
  param_type : pytype;
  param_description : string;
  param_required : bool;
  (** [default: Any = None]; [JNull] is [None] *)
  param_default : json
}.

Definition is_None (v : json) : bool :=
  match v with
  | JNull => true
  | _ => false
  end.

(** What [execute] of a tool class does.  [PlaceholderTool] is the one
    concrete subclass of the module; any other subclass is given by the
    body of its [execute], a function of the dictionary [kwargs] that
    returns or raises. *)
Inductive tool_class : Type :=
| PlaceholderTool
| Subclass (execute_body : dict -> res json).

Record Tool : Type := mk_tool {
  name : string;
  description : string;
  _parameters : list ToolParameter;
  class_of : tool_class
}.

Section Interpreter.
(** Two builtins are left to the interpreter: the text [str(v)] of a
    value that is not a string, and the numeral and pair-sequence
    parsing done by [int(v)], [float(v)] and [dict(v)]. *)
Variable py_str : json -> string.
Variable py_new : pytype -> json -> res json.

(** [ty(value)] *)
Definition construct (ty : pytype) (value : json) : res json :=
  match ty with
  | PyStr =>
      Ok (JStr (match value with JStr s => s | _ => py_str value end))
  | PyBool => Ok (JBool (truthy value))
  | PyList => list_of value
  | PyClass _ _ new => new value
  | PyInt | PyFloat | PyDict => py_new ty value
  end.

(** The block "Basic type checking": a value of the declared type is
  kept, any other is passed to the type; [ValueError] and [TypeError]
  are re-raised as [ValueError] with the message of the code, any other
  exception passes through. *)
Definition coerce (param : ToolParameter) (value : json) : res json :=
if isinstance value (param_type param) then Ok value
else
  match construct (param_type param) value with
  | Ok v => Ok v
  | Raise (ValueError _) | Raise (TypeError _) =>
      Raise (ValueError ("Parameter " ^ param_name param
                         ^ " must be of type "
                         ^ type_name (param_type param)))
  | Raise e => Raise e
  end.

(** Binding [**kwargs] in a call of a method whose named parameters are
  [named], all of them given by position: the first keyword that is one
  of these names collides with the argument already bound to it, and the
  call raises [TypeError] before the body of the method runs.  Otherwise
  the body gets the keywords as its dictionary [kwargs].  (The
  interpreter writes the method name qualified by its class since
  Python 3.10.) *)
Definition bind_kwargs (method : string) (named : list string)
  (kwargs : dict) : res dict :=
match find (fun key => mem key named) (PyDict.keys kwargs) with
| None => Ok kwargs
| Some key =>
    Raise (TypeError (method ^ "() got multiple values for argument '"
                      ^ key ^ "'"))
end.

(** The body of the loop of [Tool.validate_parameters] for one
  parameter; [kwargs] is the dictionary the call has bound. *)
Definition validate_parameter (kwargs : dict) (param : ToolParameter)
  (validated : dict) : res dict :=
match PyDict.get (param_name param) kwargs with
| Some value =>
    value' <- coerce param value ;;
    Ok (PyDict.set (param_name param) value' validated)
| None =>
    if param_required param then
      if negb (is_None (param_default param))
      then Ok (PyDict.set (param_name param) (param_default param)
                          validated)
      else Raise (ValueError ("Required parameter " ^ param_name param
                              ^ " is missing"))
    else if negb (is_None (param_default param))
    then Ok (PyDict.set (param_name param) (param_default param)
                        validated)
    else Ok validated
end.

Fixpoint validate_loop (kwargs : dict) (params : list ToolParameter)
    (validated : dict) : res dict :=
  match params with
  | [] => Ok validated
  | param :: rest =>
      validated' <- validate_parameter kwargs param validated ;;
      validate_loop kwargs rest validated'
  end.

(** A call of [Tool.validate_parameters(self, **kwargs)] with keyword
    arguments only. *)
Definition validate_parameters (tool : Tool) (kwargs : dict) : res dict :=
  kwargs <- bind_kwargs "validate_parameters" ["self"] kwargs ;;
  validate_loop kwargs (_parameters tool) [].

(** The call [await tool.execute(context, **kwargs)] of
    [execute(self, context, **kwargs)], the signature [Tool] declares.
    [PlaceholderTool.execute] validates and then formats its answer; the
    request context is a handle its body does not inspect. *)
Definition execute (tool : Tool) (kwargs : dict) : res json :=
  kwargs <- bind_kwargs "execute" ["self"; "context"] kwargs ;;
  match class_of tool with
  | PlaceholderTool =>
      validated_params <- validate_parameters tool kwargs ;;
      Ok (JStr ("Placeholder tool '" ^ name tool
                ^ "' executed with parameters: "
                ^ py_str (JObj validated_params)))
  | Subclass body => body kwargs
  end.
End Interpreter.

(** [Tool._get_json_type] *)
Definition _get_json_type (python_type : pytype) : string :=
  match python_type with
  | PyStr => "string"
  | PyInt => "integer"
  | PyFloat => "number"
  | PyBool => "boolean"
  | PyList => "array"
  | PyDict => "object"
  | PyClass _ _ _ => "string"
  end.

(** [Tool.get_schema], before [json.dumps]. *)
Definition get_schema (tool : Tool) : json :=
  JObj [("name", JStr (name tool));
        ("description", JStr (description tool));
        ("parameters",
         JObj [("type", JStr "object");
               ("properties",
                JObj (fold_left
                        (fun props param =>
                           PyDict.set (param_name param)
                             (JObj [("type",
                                     JStr (_get_json_type (param_type param)));
                                    ("description",
                                     JStr (param_description param))])
                             props)
                        (_parameters tool) []));
               ("required",
                JArr (map (fun param => JStr (param_name param))
                          (filter param_required (_parameters tool))))])].


(** [PlaceholderTool.__init__] *)
Definition new_PlaceholderTool (name description : string) : Tool :=
  mk_tool name description
    [mk_param "query" PyStr "Query or search term" false (JStr "");
     mk_param "path" PyStr "File or directory path" false (JStr ".")]
    PlaceholderTool.

(** *** [ToolRegistry] *)

Definition ToolRegistry : Type := PyDict.t Tool.

(** Every method returns the new registry and the records it logged. *)
Definition register_tool (tool : Tool) (self : ToolRegistry)
  : ToolRegistry * list log_record :=
  (PyDict.set (name tool) tool self,
   [log_debug ("Registered tool: " ^ name tool)]).

Definition unregister_tool (n : string) (self : ToolRegistry)
  : ToolRegistry * list log_record :=
  if PyDict.has n self
  then (PyDict.pop n self, [log_debug ("Unregistered tool: " ^ n)])
  else (self, []).

Definition get_tool (n : string) (self : ToolRegistry) : option Tool :=
  PyDict.get n self.

Definition list_tools (self : ToolRegistry) : list string :=
  PyDict.keys self.

Definition get_tools_by_category (category : string) (self : ToolRegistry)
  : list Tool :=
  PyDict.values self.

Definition builtin_tools : list (string * string) :=
  [("find_symbol", "Find symbols in the codebase");
   ("get_symbols_overview", "Get overview of symbols in a file");
   ("find_referencing_symbols", "Find symbols that reference a given symbol");
   ("search_for_pattern", "Search for patterns in the codebase");
   ("list_dir", "List directory contents");
   ("find_file", "Find files in the project");
   ("edit_symbol", "Edit a symbol in the codebase");
   ("create_file", "Create a new file");
   ("delete_file", "Delete a file");
   ("analyze_code", "Analyze code quality and structure");
   ("generate_report", "Generate analysis reports")].

(** [ToolRegistry._load_builtin_tools] *)
Definition _load_builtin_tools (self : ToolRegistry)
  : ToolRegistry * list log_record :=
  fold_left
    (fun (acc : ToolRegistry * list log_record) nd =>
       let '(reg, logs) := acc in
       let '(reg', logs') :=
         register_tool (new_PlaceholderTool (fst nd) (snd nd)) reg in
       (reg', logs ++ logs'))
    builtin_tools (self, []).

(** [ToolRegistry()] *)
Definition new_ToolRegistry : ToolRegistry * list log_record :=
  _load_builtin_tools [].

(** Every tool is stored under its own name, once. *)
Definition registry_ok (self : ToolRegistry) : Prop :=
  NoDup (PyDict.keys self)
  /\ Forall (fun kt => name (snd kt) = fst kt) self.

End Tools.

(** ** Contexts and modes: [serena/config/context_mode.py] *)

Module ContextMode.

Record SerenaAgentContext : Type := mk_context {
  context_name : string;
  context_description : string;
  context_settings : dict;
  tools : list string;
  memory_settings : dict
}.

Record SerenaAgentMode : Type := mk_mode {
  mode_name : string;
  mode_description : string;
  enabled_tools : list string;
  disabled_tools : list string;
  mode_settings : dict
}.

Definition builtin_contexts : PyDict.t SerenaAgentContext :=
  [("default",
    mk_context "default" "Default context with standard tools"
      [("max_results", JInt 100); ("timeout", JInt 30)]
      ["find_symbol"; "get_symbols_overview"; "search_for_pattern"] []);
   ("minimal",
    mk_context "minimal" "Minimal context with basic tools only"
      [("max_results", JInt 50); ("timeout", JInt 15)]
      ["find_symbol"; "search_for_pattern"] []);
   ("full",
    mk_context "full" "Full context with all available tools"
      [("max_results", JInt 500); ("timeout", JInt 60)]
      [] []) ].

Definition builtin_modes : PyDict.t SerenaAgentMode :=
  [("interactive",
    mk_mode "interactive" "Interactive mode for user communication"
      ["ask_user"; "show_message"] []
      [("interactive", JBool true); ("auto_confirm", JBool false)]);
   ("editing",
    mk_mode "editing" "Editing mode for code modifications"
      ["edit_symbol"; "create_file"; "delete_file"] []
      [("backup_files", JBool true); ("validate_syntax", JBool true)]);
   ("analysis",
    mk_mode "analysis" "Analysis mode for code inspection"
      ["analyze_code"; "generate_report"]
      ["edit_symbol"; "create_file"; "delete_file"]
      [("deep_analysis", JBool true); ("generate_metrics", JBool true)]);
   ("monitoring",
    mk_mode "monitoring" "Monitoring mode for watching changes"
      ["watch_files"; "track_changes"] []
      [("watch_interval", JFloat f1); ("auto_refresh", JBool true)]) ].

Section Load.
(** The file system and the JSON reader are the environment of [load]:
    [is_json_file p] is the test [Path(p).exists() and Path(p).suffix ==
    '.json'], which answers or raises what [exists()] raises (an
    [OSError] that [exists()] does not take for "no such file", as for a
    name longer than the file system allows); [path_str p] is
    [str(Path(p))]; and [read_as p] stands for the statements inside
    [try] (open the file, [json.load] it, call [cls] on the data), which
    return an instance or raise. *)
Context {T : Type}.
Variable is_json_file : string -> res bool.
Variable path_str : string -> string.
Variable read_as : string -> res T.

(** The body shared by the two [load] class methods for an argument that
    is a string.  [builtins] is the table of presets, [what] and [What]
    the class word of the two log messages, [fallback] the key returned
    by the last line.  The file test stands before [try]: what it raises
    leaves [load].  [except Exception] does not catch an exception that
    derives from [BaseException] alone. *)
Definition load_named (builtins : PyDict.t T) (what What fallback : string)
    (arg : string) : res T * list log_record :=
  match PyDict.get arg builtins with
  | Some preset => (Ok preset, [])
  | None =>
      match is_json_file arg with
      | Raise e => (Raise e, [])
      | Ok is_file =>
          let attempt : option (res T) * list log_record :=
            if is_file then
              match read_as arg with
              | Ok loaded => (Some (Ok loaded), [])
              | Raise e =>
                  if is_Exception e
                  then (None,
                        [log_warning ("Failed to load " ^ what ^ " from "
                                      ^ path_str arg ^ ": " ^ exn_str e)])
                  else (Some (Raise e), [])
              end
            else (None, []) in
          match attempt with
          | (Some r, logs) => (r, logs)
          | (None, logs) =>
              (match PyDict.get fallback builtins with
               | Some d => Ok d
               | None => Raise (OtherException fallback)
               end,
               logs ++ [log_warning (What ^ " '" ^ arg
                                     ^ "' not found, using " ^ fallback)])
          end
      end
  end.
End Load.

(** [SerenaAgentContext.load]: an instance is returned as it is. *)
Definition load_context (is_json_file : string -> res bool)
    (path_str : string -> string)
    (read_as : string -> res SerenaAgentContext)
    (context : string + SerenaAgentContext)
  : res SerenaAgentContext * list log_record :=
  match context with
  | inr instance => (Ok instance, [])
  | inl arg =>
      load_named is_json_file path_str read_as builtin_contexts
                 "context" "Context" "default" arg
  end.

(** [SerenaAgentMode.load] *)
Definition load_mode (is_json_file : string -> res bool)
    (path_str : string -> string)
    (read_as : string -> res SerenaAgentMode)
    (mode : string + SerenaAgentMode)
  : res SerenaAgentMode * list log_record :=
  match mode with
  | inr instance => (Ok instance, [])
  | inl arg =>
      load_named is_json_file path_str read_as builtin_modes
                 "mode" "Mode" "interactive" arg
  end.

(** [SerenaAgentMode.is_tool_enabled] *)
Definition is_tool_enabled (self : SerenaAgentMode) (tool_name : string)
  : bool :=
  if mem tool_name (disabled_tools self) then false
  else if (match enabled_tools self with [] => false | _ => true end)
          && negb (mem tool_name (enabled_tools self))
  then false
  else true.

(** [SerenaAgentMode.get_setting] *)
Definition get_setting (self : SerenaAgentMode) (key : string)
    (default : json) : json :=
  match PyDict.get key (mode_settings self) with
  | Some v => v
  | None => default
  end.

End ContextMode.

(** ** Constants: [serena/constants.py] *)

Definition DEFAULT_CONTEXT : string := "default".
Definition DEFAULT_MODES : list string := ["interactive"; "editing"].

(** ** The agent: [serena/agent.py] *)

Module Agent.
Import Tools ContextMode.

Record SerenaConfig : Type := mk_config {
  config_project_path : option string;
  config_context : option SerenaAgentContext;
  config_modes : list SerenaAgentMode;
  config_tools : list string;
  config_settings : dict
}.

Record SerenaAgent : Type := mk_agent {
  config : SerenaConfig;
  context : option SerenaAgentContext;
  modes : list SerenaAgentMode;
  tool_registry : ToolRegistry
}.

(** [SerenaAgent._load_tool]: a lookup whose only effect is the record it
    logs ([get_tool] does not raise, so the handler is never entered). *)
Definition _load_tool (tool_name : string) (self : SerenaAgent)
  : list log_record :=
  match get_tool tool_name (tool_registry self) with
  | Some _ => [log_debug ("Loaded tool: " ^ tool_name)]
  | None => [log_warning ("Tool not found: " ^ tool_name)]
  end.

Definition default_tools : list string :=
  ["find_symbol"; "get_symbols_overview"; "find_referencing_symbols";
   "search_for_pattern"; "list_dir"; "find_file"].

Definition mode_tools : PyDict.t (list string) :=
  [("interactive", ["ask_user"; "show_message"]);
   ("editing", ["edit_symbol"; "create_file"; "delete_file"]);
   ("analysis", ["analyze_code"; "generate_report"]);
   ("monitoring", ["watch_files"; "track_changes"])].

(** [SerenaAgent._load_mode_tools] *)
Definition _load_mode_tools (mode : SerenaAgentMode) (self : SerenaAgent)
  : list log_record :=
  flat_map (fun tool_name => _load_tool tool_name self)
           (match PyDict.get (mode_name mode) mode_tools with
            | Some l => l
            | None => []
            end).

(** [SerenaAgent._load_tools]: default tools, then the tools of every mode,
    then the configured ones.  Nothing here writes to the registry. *)
Definition _load_tools (self : SerenaAgent) : list log_record :=
  flat_map (fun tool_name => _load_tool tool_name self) default_tools
  ++ flat_map (fun mode => _load_mode_tools mode self) (modes self)
  ++ flat_map (fun tool_name => _load_tool tool_name self)
              (config_tools (config self)).

(** [SerenaAgent.__init__].  The registry is a fresh [ToolRegistry()]
    whatever the configuration; of [_initialize] only the records logged
    by [_load_tools] are kept, the rest being log lines too.  The
    attribute [project_path], a path resolved against the working
    directory that no tool operation reads, stays in the configuration. *)
Definition new_SerenaAgent (config : SerenaConfig)
  : SerenaAgent * list log_record :=
  let '(registry, logs) := new_ToolRegistry in
  let self :=
    mk_agent config (config_context config) (config_modes config) registry in
  (self, logs ++ _load_tools self).

(** [SerenaAgent.get_available_tools] *)
Definition get_available_tools (self : SerenaAgent) : list Tool :=
  PyDict.values (tool_registry self).

(** [status["available_tools"]] of [SerenaAgent.get_status] *)
Definition available_tool_names (self : SerenaAgent) : list string :=
  map name (get_available_tools self).

End Agent.

(** ** The protocol adapter: [serena/mcp.py] *)

Module MCP.
Import Tools ContextMode Agent.

Section Interpreter.
Variable py_str : json -> string.
Variable py_new : pytype -> json -> res json.

(** The body of the closure [mcp_tool_wrapper] written for [tool]: its
    answer and the records it logs.  [except Exception] lets through an
    exception that derives from [BaseException] alone. *)
Definition mcp_tool_wrapper (tool : Tool) (kwargs : dict)
  : res string * list log_record :=
  match execute py_str py_new tool kwargs with
  | Ok result =>
      (Ok (match result with JStr s => s | _ => py_str result end), [])
  | Raise e =>
      if is_Exception e
      then (Ok ("Error: " ^ exn_str e),
            [log_error ("Error executing tool " ^ name tool ^ ": "
                        ^ exn_str e)])
      else (Raise e, [])
  end.
End Interpreter.

(** [SerenaMCPFactory._create_mcp_tool].  The schema is computed, and
    sanitized on request; then the decorator expression [mcp.tool(...)]
    is evaluated.  [mcp] is neither a parameter nor a local of the
    method, and the module binds no such name (its imports bind [server],
    [FastMCP], [Settings] and [MCPTool]): the lookup raises [NameError]
    before the closure is defined, and the method returns no wrapper.
    The result type is that of the wrapper, given by the tool it would
    close over. *)
Definition _create_mcp_tool (tool : Tool) (openai_tool_compatible : bool)
  : res Tool :=
  _ <- (if openai_tool_compatible
        then Sanitizer.sanitize (get_schema tool)
        else Ok (get_schema tool)) ;;
  Raise (NameError "name 'mcp' is not defined").

Section Server.
(** [FastMCP] is a class of the library [mcp], which is no part of the
    sources: the server and the method [mcp.register_tool] that
    [_register_tools] calls on it are parameters. *)
Variable FastMCP : Type.
Variable mcp_register_tool : FastMCP -> Tool -> res FastMCP.

(** The loop of [_register_tools] over [tools]. *)
Fixpoint register_all (tools : list Tool) (openai_tool_compatible : bool)
    (mcp : FastMCP) : res FastMCP :=
  match tools with
  | [] => Ok mcp
  | tool :: rest =>
      mcp_tool <- _create_mcp_tool tool openai_tool_compatible ;;
      mcp' <- mcp_register_tool mcp mcp_tool ;;
      register_all rest openai_tool_compatible mcp'
  end.

(** [SerenaMCPFactory._register_tools] *)
Definition _register_tools (mcp : FastMCP) (agent : SerenaAgent)
    (openai_tool_compatible : bool) : res FastMCP :=
  register_all (get_available_tools agent) openai_tool_compatible mcp.
End Server.

End MCP.

(** ** Schema-shaped trees *)

Module Shape.
Import Sanitizer.

Definition is_string (x : json) : bool :=
  match x with
  | JStr _ => true
  | _ => false
  end.

(** No key occurs twice. *)
Fixpoint distinct (l : list string) : bool :=
  match l with
  | [] => true
  | x :: l' => negb (mem x l') && distinct l'
  end.

(** A ["type"] that is a list is a list of type names. *)
Definition type_ok (node : dict) : bool :=
  match PyDict.get "type" node with
  | Some (JArr t) => forallb is_string t
  | _ => true
  end.

Definition is_nested_key (key : string) : bool :=
  mem key structural_keys || mem key combinator_keys.

(** The values [walk] recurses into under [key]. *)
Definition shaped_child (shaped : json -> bool) (key : string) (value : json)
  : bool :=
  if mem key structural_keys then
    match value with
    | JObj _ => shaped value
    | JArr items => forallb shaped items
    | _ => true
    end
  else if mem key combinator_keys then
    match value with
    | JArr items => forallb shaped items
    | _ => true
    end
  else true.

(** A JSON-Schema-shaped tree: every node the sanitizer visits is a
    dictionary (distinct keys) whose ["type"], when it is a union, lists
    type names. *)
Fixpoint schema_shaped (j : json) : bool :=
  match j with
  | JObj entries =>
      distinct (PyDict.keys entries) && type_ok entries
      && forallb (fun kv => shaped_child schema_shaped (fst kv) (snd kv))
                 entries
  | _ => true
  end.

(** A node on which the block "handle type" has nothing left to do. *)
Definition type_settled (node : dict) : bool :=
  match PyDict.get "type" node with
  | Some (JStr t) => negb (String.eqb t "integer")
  | Some (JArr t) =>
      (2 <=? List.length t)%nat
      && forallb (fun x => negb (is_str "null" x) && negb (is_str "integer" x))
                 t
      && implb (existsb (is_str "number") t) (PyDict.has "multipleOf" node)
  | _ => true
  end.

(** A node on which the block "handle enum" has nothing left to do. *)
Definition enum_settled (node : dict) : bool :=
  match PyDict.get "enum" node with
  | Some (JArr (v :: vs)) => negb (forallb isinstance_int (v :: vs))
  | _ => true
  end.

(** The type of a walked dictionary is never the string ["integer"]. *)
Definition not_integer (j : json) : Prop :=
  match j with
  | JObj d => opt_is_str "integer" (PyDict.get "type" d) = false
  | _ => True
  end.

(** A child on which one more iteration of the loop changes nothing. *)
Definition settled (key : string) (value : json) : Prop :=
  forall cur : dict,
    PyDict.get key cur = Some value ->
    walk_nested walk key value cur = Ok cur.

(** The members of [t2] are neither ["null"] nor ["integer"]. *)
Definition clean (x : json) : bool :=
  negb (is_str "null" x) && negb (is_str "integer" x).

(** [walked c]: whatever [walk] returns for [c] is not typed
    ["integer"]. *)
Definition walked (c : json) : Prop :=
  forall c', walk c = Ok c' -> not_integer c'.

(** Walking once more returns the walked tree. *)
Definition idem (c : json) : Prop :=
  forall c', schema_shaped c = true -> walk c = Ok c' -> walk c' = Ok c'.

End Shape.

(** ** Derived notions *)

Module Derived.
Import Sanitizer Shape.

(** A tree on whose visited nodes the two blocks of [walk] have nothing
    left to do: no node is typed ["integer"], a type union has at least
    two members, none of them ["null"] or ["integer"], and carries a
    [multipleOf] when it lists ["number"], and no enum is a list of
    integers. *)
Fixpoint sanitized (j : json) : bool :=
  match j with
  | JObj entries =>
      type_settled entries && enum_settled entries
      && forallb (fun kv => shaped_child sanitized (fst kv) (snd kv)) entries
  | _ => true
  end.

(** A key the sanitizer neither reads nor descends into. *)
Definition plain_key (key : string) : bool :=
  negb (String.eqb key "type") && negb (String.eqb key "enum")
  && negb (is_nested_key key).

(** A non-dictionary value, for which [item.get] raises. *)
Definition is_dict (j : json) : bool :=
  match j with
  | JObj _ => true
  | _ => false
  end.

(** A branch whose ["type"] is a union that stays a union: at least two
    members are left once ["null"] is dropped. *)
Definition union_typed (j : json) : bool :=
  match j with
  | JObj d =>
      match PyDict.get "type" d with
      | Some (JArr t) => (2 <=? List.length (strip_union t))%nat
      | _ => false
      end
  | _ => false
  end.

End Derived.

(** ** Concrete inputs *)

(** [float_is_integer f z]: the finite binary64 value [f] is the integer
    [z]. *)
Definition float_is_integer (f : spec_float) (z : Z) : Prop :=
  match f with
  | S754_zero _ => z = 0%Z
  | S754_finite s m e =>
      (e <= 0)%Z /\ (z * 2 ^ (- e) = if s then Z.neg m else Z.pos m)%Z
  | _ => False
  end.

Module Examples.

(** [{"type": "integer", "enum": [1, 2, 3]}] *)
Definition integer_enum_entries : dict :=
  [("type", JStr "integer"); ("enum", JArr [JInt 1; JInt 2; JInt 3])].
Definition integer_enum : json := JObj integer_enum_entries.
Definition integer_enum_sanitized : dict :=
  [("type", JStr "number");
   ("enum", JArr [JFloat f1; JFloat f2; JFloat f3]);
   ("multipleOf", JInt 1)].

(** [{"oneOf": [{"type": "integer"}, {"type": "number"}]}] *)
Definition integer_or_number : json :=
  JObj [("oneOf", JArr [JObj [("type", JStr "integer")];
                        JObj [("type", JStr "number")]])].

(** An object schema with a nullable integer property list, an item
    schema and a union. *)
Definition nested_schema : json :=
  JObj [("type", JArr [JStr "integer"; JStr "null"]);
        ("enum", JArr [JInt 1; JInt 2]);
        ("items", JObj [("type", JStr "integer")]);
        ("anyOf", JArr [JObj [("type", JStr "integer")];
                        JObj [("type", JArr [JStr "null"])]]);
        ("properties", JObj [("items", JObj [("type", JStr "integer")])])].
Definition nested_schema_sanitized : json :=
  JObj [("type", JStr "number");
        ("enum", JArr [JFloat f1; JFloat f2]);
        ("items", JObj [("type", JStr "number"); ("multipleOf", JInt 1)]);
        ("anyOf", JArr [JObj [("type", JStr "number"); ("multipleOf", JInt 1)];
                        JObj [("type", JStr "object")]]);
        ("properties",
         JObj [("items", JObj [("type", JStr "number");
                               ("multipleOf", JInt 1)])]);
        ("multipleOf", JInt 1)].

(** A tool with two required parameters that have no default. *)
Definition copy_tool : Tools.Tool :=
  Tools.mk_tool "copy" "Copy files"
    [Tools.mk_param "paths" Tools.PyList "Files to copy" true JNull;
     Tools.mk_param "target" Tools.PyStr "Destination directory" true JNull]
    (Tools.Subclass (fun _ => Ok (JStr "copied"))).

(** A tool with a parameter declared [int]. *)
Definition head_tool : Tools.Tool :=
  Tools.mk_tool "head" "First lines of a file"
    [Tools.mk_param "path" Tools.PyStr "File to read" true JNull;
     Tools.mk_param "lines" Tools.PyInt "Number of lines" false (JInt 10)]
    (Tools.Subclass (fun _ => Ok (JStr ""))).

(** A complete call. *)
Definition copy_call : dict :=
  [("paths", JArr [JStr "a.py"]); ("target", JStr "out")].

(** A tool whose executor always raises. *)
Definition boom_tool : Tools.Tool :=
  Tools.mk_tool "boom" "Always fails" []
    (Tools.Subclass (fun _ => Raise (RuntimeError "boom"))).

(** A second registration under the name of a built-in tool. *)
Definition list_dir_v2 : Tools.Tool :=
  Tools.mk_tool "list_dir" "List a directory, newest first" []
    (Tools.Subclass (fun _ => Ok (JArr []))).

(** An agent configuration whose only mode is the preset "analysis",
    with the preset context "default". *)
Definition analysis_mode : ContextMode.SerenaAgentMode :=
  ContextMode.mk_mode "analysis" "Analysis mode for code inspection"
    ["analyze_code"; "generate_report"]
    ["edit_symbol"; "create_file"; "delete_file"]
    [("deep_analysis", JBool true); ("generate_metrics", JBool true)].

Definition default_context : ContextMode.SerenaAgentContext :=
  ContextMode.mk_context "default" "Default context with standard tools"
    [("max_results", JInt 100); ("timeout", JInt 30)]
    ["find_symbol"; "get_symbols_overview"; "search_for_pattern"] [].

Definition interactive_mode : ContextMode.SerenaAgentMode :=
  ContextMode.mk_mode "interactive" "Interactive mode for user communication"
    ["ask_user"; "show_message"] []
    [("interactive", JBool true); ("auto_confirm", JBool false)].

Definition editing_mode : ContextMode.SerenaAgentMode :=
  ContextMode.mk_mode "editing" "Editing mode for code modifications"
    ["edit_symbol"; "create_file"; "delete_file"] []
    [("backup_files", JBool true); ("validate_syntax", JBool true)].

Definition analysis_config : Agent.SerenaConfig :=
  Agent.mk_config None (Some default_context) [analysis_mode] [] [].

(** A file system in which [broken.json] exists and is not valid JSON. *)
Definition only_broken (path : string) : res bool :=
  Ok (String.eqb path "broken.json").
Definition read_broken {T : Type} (path : string) : res T :=
  Raise (ValueError "Expecting value: line 1 column 1 (char 0)").

(** The calls of the examples never reach the two builtins the
    interpreter is left with; where one is needed they are these. *)
Definition any_str (v : json) : string := "".
Definition any_new (ty : Tools.pytype) (v : json) : res json :=
  Raise (TypeError "").

(** The configuration of the default context and the default modes. *)
Definition default_config : Agent.SerenaConfig :=
  Agent.mk_config None (Some default_context)
                  [interactive_mode; editing_mode] [] [].

(** A file system whose names have at most 255 letters and that holds no
    file: the lookup of a longer name fails with [ENAMETOOLONG], which
    [Path.exists()] raises again. *)
Definition name_limit (path : string) : res bool :=
  if Nat.ltb 255 (String.length path)
  then Raise (OSError "[Errno 36] File name too long")
  else Ok false.

(** ["a" * 256] *)
Definition long_name : string :=
  String.concat EmptyString (repeat "a" 256).



End Examples.

(** * Properties *)

(** ** Dictionaries *)

Module PyDictFacts.
Import PyDict.

Section Facts.
Context {V : Type}.
Implicit Types (d : PyDict.t V) (k : string) (v : V).

Lemma get_set_same d k v : get k (set k v d) = Some v.
Proof.
  induction d as [|[k' v'] d IH]; simpl.
  - now rewrite String.eqb_refl.
  - destruct (String.eqb k' k) eqn:E; simpl.
    + now rewrite String.eqb_refl.
    + now rewrite E.
Qed.

Lemma get_set_other d k k' v : k <> k' -> get k' (set k v d) = get k' d.
Proof.
  intros Hne. induction d as [|[k0 v0] d IH]; simpl.
  - destruct (String.eqb k k') eqn:E; [apply String.eqb_eq in E; congruence | reflexivity].
  - destruct (String.eqb k0 k) eqn:E; simpl.
    + apply String.eqb_eq in E; subst k0.
      destruct (String.eqb k k') eqn:E'; [apply String.eqb_eq in E'; congruence | reflexivity].
    + now rewrite IH.
Qed.

Lemma set_get_id d k v : get k d = Some v -> set k v d = d.
Proof.
  induction d as [|[k' v'] d IH]; simpl; [discriminate|].
  destruct (String.eqb k' k) eqn:E.
  - apply String.eqb_eq in E. intros [= ->]. now subst.
  - intros H. now rewrite IH.
Qed.

Lemma has_set_same d k v : has k (set k v d) = true.
Proof. unfold has. now rewrite get_set_same. Qed.

Lemma has_set_other d k k' v : k <> k' -> has k' (set k v d) = has k' d.
Proof. intros. unfold has. now rewrite get_set_other. Qed.

Lemma get_In d k v : get k d = Some v -> In (k, v) d.
Proof.
  induction d as [|[k' v'] d IH]; simpl; [discriminate|].
  destruct (String.eqb k' k) eqn:E.
  - apply String.eqb_eq in E. intros [= ->]. left. now subst.
  - intros H. right. auto.
Qed.

Lemma get_None_keys d k : get k d = None <-> ~ In k (keys d).
Proof.
  induction d as [|[k' v'] d IH]; simpl; [tauto|].
  destruct (String.eqb k' k) eqn:E.
  - apply String.eqb_eq in E. split; [discriminate | intros H; exfalso; apply H; now left].
  - apply String.eqb_neq in E. rewrite IH. tauto.
Qed.

Lemma has_keys d k : has k d = true <-> In k (keys d).
Proof.
  unfold has. destruct (get k d) eqn:E.
  - split; [intros _|reflexivity].
    apply get_In in E. apply (in_map fst) in E. exact E.
  - apply get_None_keys in E. split; [discriminate | tauto].
Qed.

Lemma In_get d k v : NoDup (keys d) -> In (k, v) d -> get k d = Some v.
Proof.
  induction d as [|[k' v'] d IH]; simpl; [tauto|].
  intros Hnd [Heq | Hin].
  - injection Heq as -> ->. now rewrite String.eqb_refl.
  - inversion Hnd as [|? ? Hnotin Hnd']; subst.
    destruct (String.eqb k' k) eqn:E.
    + apply String.eqb_eq in E; subst k'.
      exfalso. apply Hnotin. apply (in_map fst) in Hin. exact Hin.
    + auto.
Qed.

Lemma keys_set_present d k v : has k d = true -> keys (set k v d) = keys d.
Proof.
  unfold has. induction d as [|[k' v'] d IH]; simpl; [discriminate|].
  destruct (String.eqb k' k) eqn:E; simpl.
  - apply String.eqb_eq in E. now subst.
  - intros H. f_equal. auto.
Qed.

Lemma keys_set_absent d k v : has k d = false -> keys (set k v d) = keys d ++ [k].
Proof.
  unfold has. induction d as [|[k' v'] d IH]; simpl; [reflexivity|].
  destruct (String.eqb k' k) eqn:E; simpl; [discriminate|].
  intros H. f_equal. auto.
Qed.

Lemma length_set_present d k v : has k d = true -> List.length (set k v d) = List.length d.
Proof.
  intros H. rewrite <- (length_map fst (set k v d)), <- (length_map fst d).
  fold (keys (set k v d)). fold (keys d). now rewrite keys_set_present.
Qed.

Lemma NoDup_keys_set d k v : NoDup (keys d) -> NoDup (keys (set k v d)).
Proof.
  intros Hnd. destruct (has k d) eqn:E.
  - now rewrite keys_set_present.
  - rewrite keys_set_absent by exact E.
    assert (Hk : ~ In k (keys d)).
    { intros Hin. apply has_keys in Hin. congruence. }
    clear E. induction (keys d) as [|x l IH]; simpl.
    + constructor; [tauto | constructor].
    + inversion Hnd; subst. constructor.
      * rewrite in_app_iff. simpl. intros [H | [H | []]]; [tauto|].
        subst. apply Hk. now left.
      * apply IH; [assumption|]. intros H. apply Hk. now right.
Qed.

End Facts.
End PyDictFacts.

(** ** The sanitizer *)

Module SanitizerFacts.
Import Sanitizer Shape PyDictFacts.

(** *** Induction over JSON trees *)

Section Induction.
Variable P : json -> Prop.
Hypothesis case_null : P JNull.
Hypothesis case_bool : forall b, P (JBool b).
Hypothesis case_int : forall z, P (JInt z).
Hypothesis case_float : forall f, P (JFloat f).
Hypothesis case_str : forall s, P (JStr s).
Hypothesis case_arr : forall items, Forall P items -> P (JArr items).
Hypothesis case_obj :
  forall entries, Forall (fun kv => P (snd kv)) entries -> P (JObj entries).

Fixpoint json_ind (j : json) : P j :=
  match j with
  | JNull => case_null
  | JBool b => case_bool b
  | JInt z => case_int z
  | JFloat f => case_float f
  | JStr s => case_str s
  | JArr items =>
      case_arr items
        (list_ind (Forall P) (Forall_nil P)
           (fun x l' rec => Forall_cons x (json_ind x) rec) items)
  | JObj entries =>
      case_obj entries
        (list_ind (Forall (fun kv => P (snd kv))) (Forall_nil _)
           (fun kv l' rec =>
              Forall_cons (P := fun kv => P (snd kv)) kv
                          (json_ind (snd kv)) rec)
           entries)
  end.
End Induction.

(** The scheme the sanitizer needs: under a dictionary, the property is
    available for every value and for every item of a list value. *)
Lemma json_schema_ind (P : json -> Prop) :
  (forall j, (forall d, j <> JObj d) -> P j) ->
  (forall entries,
      (forall k v, In (k, v) entries ->
                   P v /\ forall items, v = JArr items -> Forall P items) ->
      P (JObj entries)) ->
  forall j, P j.
Proof.
  intros Hleaf Hobj j.
  enough (H : P j /\ forall items, j = JArr items -> Forall P items)
    by apply H.
  induction j using json_ind;
    try (split; [apply Hleaf; discriminate | discriminate]).
  - split; [apply Hleaf; discriminate|].
    intros items' [= <-]. eapply Forall_impl; [|eassumption].
    intros a Ha. apply Ha.
  - split; [|discriminate].
    apply Hobj. intros k v Hin.
    rewrite Forall_forall in H. exact (H (k, v) Hin).
Qed.

(** *** [mapM] *)

Lemma mapM_Forall2 {A B} (f : A -> res B) l l' :
  mapM f l = Ok l' -> Forall2 (fun x y => f x = Ok y) l l'.
Proof.
  revert l'. induction l as [|x l IH]; simpl; intros l'.
  - intros [= <-]. constructor.
  - destruct (f x) eqn:Ex; simpl; [|discriminate].
    destruct (mapM f l) eqn:El; simpl; [|discriminate].
    intros [= <-]. constructor; auto.
Qed.

Lemma mapM_fixed {A} (f : A -> res A) l :
  Forall (fun x => f x = Ok x) l -> mapM f l = Ok l.
Proof.
  induction 1 as [|x l Hx _ IH]; simpl; [reflexivity|].
  now rewrite Hx, IH.
Qed.

Lemma mapM_length {A B} (f : A -> res B) l l' :
  mapM f l = Ok l' -> List.length l' = List.length l.
Proof.
  intros H. apply mapM_Forall2 in H.
  induction H; simpl; congruence.
Qed.

(** *** The two blocks in front of the loop *)

Lemma get_ensure_multipleOf d k :
  k <> "multipleOf" ->
  PyDict.get k (ensure_multipleOf d) = PyDict.get k d.
Proof.
  intros Hk. unfold ensure_multipleOf.
  destruct (PyDict.has "multipleOf" d); [reflexivity|].
  apply get_set_other. congruence.
Qed.

Lemma has_ensure_multipleOf d :
  PyDict.has "multipleOf" (ensure_multipleOf d) = true.
Proof.
  unfold ensure_multipleOf.
  destruct (PyDict.has "multipleOf" d) eqn:E; [exact E|].
  apply has_set_same.
Qed.

Lemma ensure_multipleOf_id d :
  PyDict.has "multipleOf" d = true -> ensure_multipleOf d = d.
Proof. unfold ensure_multipleOf. now intros ->. Qed.

Lemma NoDup_ensure_multipleOf d :
  NoDup (PyDict.keys d) -> NoDup (PyDict.keys (ensure_multipleOf d)).
Proof.
  unfold ensure_multipleOf. destruct (PyDict.has "multipleOf" d); [auto|].
  apply NoDup_keys_set.
Qed.

Lemma strip_union_clean t : forallb clean (strip_union t) = true.
Proof.
  unfold strip_union. induction t as [|x t IH]; simpl; [reflexivity|].
  destruct (is_str "null" x) eqn:En; simpl; [exact IH|].
  rewrite IH, andb_true_r. unfold clean.
  destruct (is_str "integer" x) eqn:Ei; simpl; [reflexivity|].
  now rewrite En, Ei.
Qed.

Lemma strip_union_strings t :
  forallb is_string t = true -> forallb is_string (strip_union t) = true.
Proof.
  unfold strip_union. induction t as [|x t IH]; simpl; [reflexivity|].
  intros H. apply andb_true_iff in H as [Hx Ht].
  destruct (is_str "null" x); simpl; [auto|].
  rewrite IH by exact Ht. rewrite andb_true_r.
  now destruct (is_str "integer" x).
Qed.

Lemma strip_union_id t : forallb clean t = true -> strip_union t = t.
Proof.
  unfold strip_union. induction t as [|x t IH]; simpl; [reflexivity|].
  intros H. apply andb_true_iff in H as [Hx Ht].
  unfold clean in Hx. apply andb_true_iff in Hx as [Hn Hi].
  apply negb_true_iff in Hn, Hi. rewrite Hn. simpl. rewrite Hi.
  f_equal. auto.
Qed.

Lemma clean_not_integer t :
  forallb clean t = true -> existsb (is_str "integer") t = false.
Proof.
  induction t as [|x t IH]; simpl; [reflexivity|].
  intros H. apply andb_true_iff in H as [Hx Ht].
  unfold clean in Hx. apply andb_true_iff in Hx as [_ Hi].
  apply negb_true_iff in Hi. rewrite Hi. auto.
Qed.

Lemma get_handle_type d k :
  k <> "type" -> k <> "multipleOf" ->
  PyDict.get k (handle_type d) = PyDict.get k d.
Proof.
  intros Ht Hm. unfold handle_type.
  destruct (PyDict.get "type" d) as [[| | | |s|t|]|]; try reflexivity.
  - destruct (String.eqb s "integer"); [|reflexivity].
    rewrite get_ensure_multipleOf by exact Hm.
    apply get_set_other. congruence.
  - cbv zeta.
    match goal with
    | |- PyDict.get k (if ?c then _ else _) = _ => destruct c
    end;
      rewrite ?get_ensure_multipleOf by exact Hm;
      apply get_set_other; congruence.
Qed.

Lemma NoDup_handle_type d :
  NoDup (PyDict.keys d) -> NoDup (PyDict.keys (handle_type d)).
Proof.
  intros H. unfold handle_type.
  destruct (PyDict.get "type" d) as [[| | | |s|t|]|]; try exact H.
  - destruct (String.eqb s "integer"); [|exact H].
    apply NoDup_ensure_multipleOf, NoDup_keys_set, H.
  - cbv zeta.
    match goal with
    | |- NoDup (PyDict.keys (if ?c then _ else _)) => destruct c
    end;
      try apply NoDup_ensure_multipleOf; apply NoDup_keys_set, H.
Qed.

Lemma handle_type_settled d :
  type_ok d = true -> type_settled (handle_type d) = true.
Proof.
  unfold type_ok, handle_type.
  destruct (PyDict.get "type" d) as [[| | | |s|t|]|] eqn:E;
    try (intros _; unfold type_settled; now rewrite E).
  - intros _. destruct (String.eqb s "integer") eqn:Es.
    + unfold type_settled.
      rewrite get_ensure_multipleOf, get_set_same by congruence.
      reflexivity.
    + unfold type_settled. now rewrite E, Es.
  - intros Hstr. cbv zeta.
    pose proof (strip_union_clean t) as Hclean.
    pose proof (strip_union_strings t Hstr) as Hstrs.
    destruct (strip_union t) as [|y [|y' r]] eqn:Et2.
    + (* every member was "null": the fallback "object" *)
      simpl. destruct (existsb (is_str "integer") t); simpl;
        unfold type_settled;
        rewrite ?get_ensure_multipleOf, get_set_same by congruence;
        reflexivity.
    + (* one member left: collapsed to a scalar *)
      simpl in Hclean, Hstrs. rewrite andb_true_r in Hclean, Hstrs.
      destruct y as [| | | |s'| |]; try discriminate.
      assert (Hs' : String.eqb s' "integer" = false).
      { unfold clean in Hclean. apply andb_true_iff in Hclean as [_ Hi].
        now apply negb_true_iff in Hi. }
      match goal with
      | |- type_settled (if ?c then _ else _) = true => destruct c
      end; unfold type_settled;
        rewrite ?get_ensure_multipleOf, get_set_same by congruence;
        now rewrite Hs'.
    + (* still a union *)
      set (t2 := y :: y' :: r) in *.
      destruct (existsb (is_str "integer") t || existsb (is_str "number") t2)
        eqn:Ec; unfold type_settled.
      * rewrite get_ensure_multipleOf, get_set_same by congruence.
        rewrite has_ensure_multipleOf.
        fold clean. rewrite Hclean. simpl.
        now destruct (is_str "number" y || (is_str "number" y' || existsb (is_str "number") r)).
      * rewrite get_set_same. fold clean. rewrite Hclean.
        apply orb_false_iff in Ec as [_ Ec]. rewrite Ec. reflexivity.
Qed.

Lemma handle_type_fixed d : type_settled d = true -> handle_type d = d.
Proof.
  unfold type_settled, handle_type.
  destruct (PyDict.get "type" d) as [[| | | |s|t|]|] eqn:E; try reflexivity.
  - intros H. apply negb_true_iff in H. now rewrite H.
  - intros H. apply andb_true_iff in H as [H Himp].
    apply andb_true_iff in H as [Hlen Hclean]. fold clean in Hclean.
    cbv zeta. rewrite (strip_union_id t Hclean).
    rewrite (clean_not_integer t Hclean). simpl.
    destruct t as [|y [|y' r]]; try discriminate.
    rewrite (set_get_id d "type" _ E).
    destruct (existsb (is_str "number") (y :: y' :: r)); [|reflexivity].
    simpl in Himp. now apply ensure_multipleOf_id.
Qed.

Lemma handle_type_not_integer d :
  opt_is_str "integer" (PyDict.get "type" (handle_type d)) = false.
Proof.
  unfold handle_type.
  destruct (PyDict.get "type" d) as [[| | | |s|t|]|] eqn:E;
    try (rewrite E; reflexivity).
  - destruct (String.eqb s "integer") eqn:Es.
    + rewrite get_ensure_multipleOf, get_set_same by congruence. reflexivity.
    + rewrite E. exact Es.
  - cbv zeta. pose proof (strip_union_clean t) as Hclean.
    assert (H : forall x c,
               PyDict.get "type"
                 (if c : bool then ensure_multipleOf (PyDict.set "type" x d)
                  else PyDict.set "type" x d) = Some x).
    { intros x []; rewrite ?get_ensure_multipleOf, get_set_same by congruence;
        reflexivity. }
    rewrite H. destruct (strip_union t) as [|y [|y' r]]; try reflexivity.
    simpl in Hclean. rewrite andb_true_r in Hclean.
    unfold clean in Hclean. apply andb_true_iff in Hclean as [_ Hi].
    now apply negb_true_iff in Hi.
Qed.

Lemma py_float_is_float v w :
  isinstance_int v = true -> py_float v = Ok w -> exists f, w = JFloat f.
Proof.
  destruct v; try discriminate; simpl; intros _.
  - intros [= <-]. eauto.
  - destruct (float_of_Z z); simpl; [|discriminate]. intros [= <-]. eauto.
Qed.

Lemma handle_enum_cases d d' :
  opt_is_str "integer" (PyDict.get "type" d) = false ->
  handle_enum d = Ok d' ->
  enum_settled d' = true
  /\ (d' = d \/ exists fs, d' = PyDict.set "enum" (JArr fs) d).
Proof.
  intros Hty. unfold handle_enum.
  destruct (PyDict.get "enum" d) as [[| | | | |[|v vs]|]|] eqn:E;
    try (intros [= <-]; split; [unfold enum_settled; now rewrite E | now left]).
  destruct (forallb isinstance_int (v :: vs)) eqn:Hall.
  - destruct (mapM py_float (v :: vs)) as [fs|] eqn:Hfs; simpl; [|discriminate].
    rewrite get_set_other by congruence.
    assert (Hs : enum_settled (PyDict.set "enum" (JArr fs) d) = true).
    { unfold enum_settled. rewrite get_set_same.
      simpl in Hfs. simpl in Hall. apply andb_true_iff in Hall as [Hv _].
      destruct (py_float v) as [w|] eqn:Hw; simpl in Hfs; [|discriminate].
      destruct (mapM py_float vs); simpl in Hfs; [|discriminate].
      injection Hfs as <-.
      destruct (py_float_is_float v w Hv Hw) as [f ->]. reflexivity. }
    destruct (PyDict.get "type" d) as [t|]; simpl in Hty;
      [rewrite Hty|]; intros [= <-]; (split; [exact Hs | right; eauto]).
  - intros [= <-]. split; [|now left].
    unfold enum_settled. rewrite E, Hall. reflexivity.
Qed.

Lemma handle_enum_fixed d : enum_settled d = true -> handle_enum d = Ok d.
Proof.
  unfold enum_settled, handle_enum.
  destruct (PyDict.get "enum" d) as [[| | | | |[|v vs]|]|]; try reflexivity.
  intros H. apply negb_true_iff in H. now rewrite H.
Qed.

Section Handled.
Variables (entries n : dict).
Hypothesis handled : handle_enum (handle_type entries) = Ok n.

Lemma handled_cases :
  enum_settled n = true
  /\ (n = handle_type entries
      \/ exists fs, n = PyDict.set "enum" (JArr fs) (handle_type entries)).
Proof.
  apply handle_enum_cases; [apply handle_type_not_integer | exact handled].
Qed.

Lemma handled_get k :
  k <> "type" -> k <> "multipleOf" -> k <> "enum" ->
  PyDict.get k n = PyDict.get k entries.
Proof.
  intros Ht Hm He. destruct handled_cases as [_ [-> | [fs ->]]].
  - now apply get_handle_type.
  - rewrite get_set_other by congruence. now apply get_handle_type.
Qed.

Lemma handled_type :
  PyDict.get "type" n = PyDict.get "type" (handle_type entries)
  /\ PyDict.has "multipleOf" n = PyDict.has "multipleOf" (handle_type entries).
Proof.
  destruct handled_cases as [_ [-> | [fs ->]]]; [tauto|].
  split; [apply get_set_other | apply has_set_other]; congruence.
Qed.

Lemma handled_not_integer :
  opt_is_str "integer" (PyDict.get "type" n) = false.
Proof.
  destruct handled_type as [-> _]. apply handle_type_not_integer.
Qed.

Lemma handled_NoDup :
  NoDup (PyDict.keys entries) -> NoDup (PyDict.keys n).
Proof.
  intros H. destruct handled_cases as [_ [-> | [fs ->]]].
  - now apply NoDup_handle_type.
  - now apply NoDup_keys_set, NoDup_handle_type.
Qed.

Lemma handled_type_settled :
  type_ok entries = true -> type_settled n = true.
Proof.
  intros H. apply handle_type_settled in H.
  unfold type_settled in *. destruct handled_type as [-> ->]. exact H.
Qed.
End Handled.

(** The loop acts on the entries the node had on entry: the two blocks
    leave the children under the nested keys where they were. *)
Lemma handle_keeps_children entries n key :
  handle_enum (handle_type entries) = Ok n ->
  is_nested_key key = true ->
  PyDict.get key n = PyDict.get key entries.
Proof.
  intros H Hk. apply (handled_get entries n H);
    intros ->; discriminate Hk.
Qed.

(** *** The merge is never taken *)

Lemma walk_leaf j : (forall d, j <> JObj d) -> walk j = Ok j.
Proof. destruct j; try reflexivity. intros H. now destruct (H entries). Qed.

Lemma walk_obj d :
  walk (JObj d)
  = (n <- handle_enum (handle_type d) ;;
     n' <- walk_items walk d n ;; Ok (JObj n')).
Proof. reflexivity. Qed.

Lemma walk_obj_inv d j' :
  walk (JObj d) = Ok j' ->
  exists n n', handle_enum (handle_type d) = Ok n
               /\ walk_items walk d n = Ok n' /\ j' = JObj n'.
Proof.
  rewrite walk_obj. unfold bind.
  destruct (handle_enum (handle_type d)) as [n|] eqn:Hn; [|discriminate].
  destruct (walk_items walk d n) as [n'|] eqn:Hn'; [|discriminate].
  intros [= <-]. eauto.
Qed.

Lemma no_merge items types :
  Forall not_integer items ->
  mapM item_type items = Ok types ->
  forall same, types_are_integer_number types = Ok same -> same = false.
Proof.
  intros Hni Hty same. unfold types_are_integer_number.
  destruct (forallb hashable types); [|discriminate]. intros [= <-].
  enough (H : existsb (opt_is_str "integer") types = false) by now rewrite H.
  apply mapM_Forall2 in Hty. induction Hty as [|x t l l' Hx _ IH]; [reflexivity|].
  inversion Hni as [|? ? Hx' Hl]; subst. simpl. rewrite IH by exact Hl.
  destruct x; try discriminate. simpl in Hx. injection Hx as <-.
  simpl in Hx'. now rewrite Hx'.
Qed.

Lemma mapM_walked items items' :
  Forall walked items -> mapM walk items = Ok items' ->
  Forall not_integer items'.
Proof.
  intros H Hm. apply mapM_Forall2 in Hm.
  induction Hm; inversion H; subst; constructor; auto.
Qed.

Lemma is_nested_structural k :
  mem k structural_keys = true -> is_nested_key k = true.
Proof. unfold is_nested_key. now intros ->. Qed.

Lemma is_nested_combinator k :
  mem k combinator_keys = true -> is_nested_key k = true.
Proof. unfold is_nested_key. intros ->. apply orb_true_r. Qed.

Lemma walk_nested_cases k v node node' :
  (forall items, v = JArr items -> Forall walked items) ->
  walk_nested walk k v node = Ok node' ->
  node' = node
  \/ (is_nested_key k = true /\ exists v', node' = PyDict.set k v' node).
Proof.
  intros Hitems. unfold walk_nested.
  destruct (mem k structural_keys) eqn:Hs.
  - destruct v; try (intros [= <-]; now left).
    + destruct (mapM walk items) as [items'|]; simpl; [|discriminate].
      intros [= <-]. right. split; [now apply is_nested_structural | eauto].
    + destruct (walk (JObj entries)) as [v'|]; [|discriminate].
      intros [= <-]. right. split; [now apply is_nested_structural | eauto].
  - destruct (mem k combinator_keys) eqn:Hc; [|intros [= <-]; now left].
    destruct v; try (intros [= <-]; now left).
    destruct (mapM walk items) as [items'|] eqn:Hm;
      cbv beta iota zeta delta [bind]; [|discriminate].
    intros H. right. split; [now apply is_nested_combinator|].
    exists (JArr items').
    destruct (mem k simplified_keys && (List.length items' =? 2)%nat);
      [|now injection H as <-].
    destruct (mapM item_type items') as [types|] eqn:Hty; [|discriminate].
    destruct (types_are_integer_number types) as [same|] eqn:Hsame;
      [|discriminate].
    rewrite (no_merge items' types (mapM_walked _ _ (Hitems _ eq_refl) Hm)
                      Hty same Hsame) in H.
    now injection H as <-.
Qed.

Lemma walk_items_type es : forall node node',
  (forall k v, In (k, v) es ->
               forall items, v = JArr items -> Forall walked items) ->
  walk_items walk es node = Ok node' ->
  PyDict.get "type" node' = PyDict.get "type" node.
Proof.
  induction es as [|[k v] es IH]; simpl; intros node node' Hes.
  - now intros [= <-].
  - destruct (walk_nested walk k v node) as [node1|] eqn:H1; simpl;
      [|discriminate].
    intros H. rewrite (IH node1 node') by (eauto || exact H).
    apply walk_nested_cases in H1; [|eapply Hes; now left].
    destruct H1 as [-> | [Hk [v' ->]]]; [reflexivity|].
    apply get_set_other. intros ->. discriminate Hk.
Qed.

(** The type a walked dictionary carries is never ["integer"]: the test
    [set(types) == {"integer", "number"}], made after the branches have
    been walked, is false on every input. *)
Lemma walk_not_integer j j' : walk j = Ok j' -> not_integer j'.
Proof.
  revert j'. fold (walked j). induction j using json_schema_ind.
  - intros j'. rewrite walk_leaf by assumption. intros [= <-].
    destruct j; try exact I. now destruct (H entries).
  - intros j' Hw. apply walk_obj_inv in Hw as (n & n' & Hn & Hn' & ->).
    simpl. rewrite (walk_items_type entries n n'); [| |exact Hn'].
    + now apply (handled_not_integer entries).
    + intros k v Hin. now apply (H k v).
Qed.

Lemma walk_nested_walk k v node node' :
  walk_nested walk k v node = Ok node' ->
  node' = node
  \/ (is_nested_key k = true /\ exists v', node' = PyDict.set k v' node).
Proof.
  apply walk_nested_cases. intros items _.
  apply Forall_forall. intros c _ c'. apply walk_not_integer.
Qed.

(** *** Idempotence *)

Lemma settled_not_nested k v : is_nested_key k = false -> settled k v.
Proof.
  unfold is_nested_key, settled, walk_nested. intros H cur _.
  apply orb_false_iff in H as [-> ->]. reflexivity.
Qed.

Lemma mapM_walk_idem items items' :
  Forall idem items -> forallb schema_shaped items = true ->
  mapM walk items = Ok items' -> mapM walk items' = Ok items'.
Proof.
  intros Hid Hsh Hm. apply mapM_fixed. apply mapM_Forall2 in Hm.
  rewrite forallb_forall in Hsh.
  induction Hm as [|x y l l' Hxy _ IH]; constructor.
  - inversion Hid; subst. apply (H1 y); [apply Hsh; now left | exact Hxy].
  - inversion Hid; subst. apply IH; [assumption|].
    intros c Hc. apply Hsh. now right.
Qed.

Lemma walk_nested_settles k v node node' :
  shaped_child schema_shaped k v = true ->
  idem v -> (forall items, v = JArr items -> Forall idem items) ->
  walk_nested walk k v node = Ok node' ->
  (node' = node /\ settled k v)
  \/ (is_nested_key k = true
      /\ exists v', node' = PyDict.set k v' node /\ settled k v').
Proof.
  unfold shaped_child, walk_nested at 1.
  destruct (mem k structural_keys) eqn:Hs.
  - intros Hsh Hv Hitems.
    assert (Hleft : Ok node = Ok node' ->
              (forall cur, walk_nested walk k v cur = Ok cur) ->
              (node' = node /\ settled k v)
              \/ (is_nested_key k = true
                  /\ exists v', node' = PyDict.set k v' node /\ settled k v')).
    { intros [= <-] Hc. left. split; [reflexivity | intros cur _; apply Hc]. }
    destruct v; try (intros H; apply Hleft;
      [exact H | intros cur; unfold walk_nested; now rewrite Hs]).
    + destruct (mapM walk items) as [items'|] eqn:Hm;
        cbv beta iota zeta delta [bind]; [|discriminate].
      intros [= <-]. right. split; [now apply is_nested_structural|].
      exists (JArr items'). split; [reflexivity|].
      intros cur Hcur. unfold walk_nested. rewrite Hs.
      rewrite (mapM_walk_idem items items' (Hitems _ eq_refl) Hsh Hm).
      cbv beta iota zeta delta [bind]. f_equal. now apply set_get_id.
    + destruct (walk (JObj entries)) as [v'|] eqn:Hw;
        cbv beta iota zeta delta [bind]; [|discriminate].
      intros [= <-]. right. split; [now apply is_nested_structural|].
      exists v'. split; [reflexivity|].
      intros cur Hcur. unfold walk_nested. rewrite Hs.
      pose proof (Hv v' Hsh Hw) as Hw'.
      destruct (walk_obj_inv _ _ Hw) as (n & n' & _ & _ & ->).
      rewrite Hw'. cbv beta iota zeta delta [bind]. f_equal.
      now apply set_get_id.
  - destruct (mem k combinator_keys) eqn:Hc.
    + intros Hsh Hv Hitems.
      destruct v; try (intros [= <-]; left; split; [reflexivity|];
        intros cur _; unfold walk_nested; now rewrite Hs, Hc).
      destruct (mapM walk items) as [items'|] eqn:Hm;
        cbv beta iota zeta delta [bind]; [|discriminate].
      intros H. right. split; [now apply is_nested_combinator|].
      exists (JArr items').
      pose proof (mapM_walk_idem items items' (Hitems _ eq_refl) Hsh Hm)
        as Hm'.
      destruct (mem k simplified_keys && (List.length items' =? 2)%nat)
        eqn:Hcheck.
      * destruct (mapM item_type items') as [types|] eqn:Hty; [|discriminate].
        destruct (types_are_integer_number types) as [same|] eqn:Hsame;
          [|discriminate].
        assert (Hni : Forall not_integer items').
        { apply mapM_Forall2 in Hm. clear -Hm.
          induction Hm; constructor; eauto using walk_not_integer. }
        rewrite (no_merge items' types Hni Hty same Hsame) in H.
        injection H as <-. split; [reflexivity|].
        intros cur Hcur. unfold walk_nested. rewrite Hs, Hc, Hm'.
        cbv beta iota zeta delta [bind]. rewrite Hcheck, Hty, Hsame.
        rewrite (no_merge items' types Hni Hty same Hsame).
        f_equal. now apply set_get_id.
      * injection H as <-. split; [reflexivity|].
        intros cur Hcur. unfold walk_nested. rewrite Hs, Hc, Hm'.
        cbv beta iota zeta delta [bind]. rewrite Hcheck.
        f_equal. now apply set_get_id.
    + intros _ _ _ [= <-]. left. split; [reflexivity|].
      apply settled_not_nested. unfold is_nested_key. now rewrite Hs, Hc.
Qed.

Lemma walk_items_settles es : forall node node',
  NoDup (PyDict.keys es) ->
  (forall k v, In (k, v) es -> is_nested_key k = true ->
               PyDict.get k node = Some v) ->
  (forall k v, In (k, v) es ->
               shaped_child schema_shaped k v = true /\ idem v
               /\ forall items, v = JArr items -> Forall idem items) ->
  (forall k v, PyDict.get k node = Some v ->
               In k (PyDict.keys es) \/ settled k v) ->
  walk_items walk es node = Ok node' ->
  PyDict.keys node' = PyDict.keys node
  /\ (forall k, is_nested_key k = false ->
                PyDict.get k node' = PyDict.get k node)
  /\ (forall k v, PyDict.get k node' = Some v -> settled k v).
Proof.
  induction es as [|[k0 v0] es IH]; simpl; intros node node' Hnd Hin Hch Hrest.
  - intros [= <-]. split; [reflexivity | split; [reflexivity|]].
    intros k v Hk. destruct (Hrest k v Hk) as [[]|]; assumption.
  - inversion Hnd as [|? ? Hk0 Hnd']; subst.
    destruct (walk_nested walk k0 v0 node) as [node1|] eqn:H1;
      cbv beta iota delta [bind]; [|discriminate].
    intros H.
    destruct (Hch k0 v0 (or_introl eq_refl)) as (Hsh & Hid & Hitems).
    apply (walk_nested_settles k0 v0 node node1 Hsh Hid Hitems) in H1.
    destruct H1 as [[-> Hset] | (Hnest & v' & -> & Hset)].
    + apply (IH node node'); auto.
      intros k v Hk. destruct (Hrest k v Hk) as [[<- | Hr] | Hr]; auto.
      destruct (is_nested_key k0) eqn:Hn.
      * right. rewrite (Hin k0 v0 (or_introl eq_refl) Hn) in Hk.
        now injection Hk as <-.
      * right. now apply settled_not_nested.
    + assert (Hhas : PyDict.has k0 node = true).
      { unfold PyDict.has. now rewrite (Hin k0 v0 (or_introl eq_refl) Hnest). }
      destruct (IH (PyDict.set k0 v' node) node') as (Hkeys & Hget & Hall);
        auto.
      * intros k v Hkv Hn. rewrite get_set_other; [now auto|].
        intros ->. apply Hk0. apply (in_map fst) in Hkv. exact Hkv.
      * intros k v Hk. destruct (String.eqb k0 k) eqn:E.
        -- apply String.eqb_eq in E; subst k.
           rewrite get_set_same in Hk. injection Hk as <-. now right.
        -- apply String.eqb_neq in E. rewrite get_set_other in Hk by exact E.
           destruct (Hrest k v Hk) as [[Heq | Hr] | Hr]; auto. congruence.
      * split; [|split].
        -- rewrite Hkeys. now apply keys_set_present.
        -- intros k Hk. rewrite Hget by exact Hk. apply get_set_other.
           intros ->. congruence.
        -- exact Hall.
Qed.

Lemma walk_items_fixed es : forall cur,
  (forall k v, In (k, v) es -> settled k v /\ PyDict.get k cur = Some v) ->
  walk_items walk es cur = Ok cur.
Proof.
  induction es as [|[k v] es IH]; simpl; intros cur H; [reflexivity|].
  destruct (H k v (or_introl eq_refl)) as [Hs Hg].
  rewrite (Hs cur Hg). cbv beta iota delta [bind]. apply IH.
  intros k' v' Hin. apply H. now right.
Qed.

Lemma distinct_NoDup l : distinct l = true -> NoDup l.
Proof.
  induction l as [|x l IH]; simpl; [constructor|].
  intros H. apply andb_true_iff in H as [Hx Hl].
  constructor; [|auto].
  intros Hin. apply negb_true_iff in Hx.
  assert (mem x l = true); [|congruence].
  unfold mem. apply existsb_exists. exists x. split; [exact Hin|].
  apply String.eqb_refl.
Qed.

Lemma walk_idem j : idem j.
Proof.
  induction j using json_schema_ind.
  - intros j' _. rewrite walk_leaf by assumption. intros [= <-].
    now apply walk_leaf.
  - intros j' Hshape Hw.
    apply walk_obj_inv in Hw as (n & n' & Hn & Hn' & ->).
    simpl in Hshape. apply andb_true_iff in Hshape as [Hshape Hkids].
    apply andb_true_iff in Hshape as [Hdist Htype].
    apply distinct_NoDup in Hdist. rewrite forallb_forall in Hkids.
    destruct (walk_items_settles entries n n') as (Hkeys & Hget & Hall);
      auto.
    + intros k v Hin Hk. rewrite (handle_keeps_children entries n k Hn Hk).
      now apply In_get.
    + intros k v Hin. split; [exact (Hkids (k, v) Hin) | apply (H k v Hin)].
    + intros k v Hk. destruct (is_nested_key k) eqn:Hnest.
      * left. rewrite (handle_keeps_children entries n k Hn Hnest) in Hk.
        apply get_In in Hk. apply (in_map fst) in Hk. exact Hk.
      * right. now apply settled_not_nested.
    + assert (Hnd' : NoDup (PyDict.keys n')).
      { rewrite Hkeys. now apply (handled_NoDup entries). }
      assert (Ht : type_settled n' = true).
      { pose proof (handled_type_settled entries n Hn Htype) as Ht.
        unfold type_settled, PyDict.has in *.
        now rewrite !Hget by reflexivity. }
      assert (He : enum_settled n' = true).
      { destruct (handled_cases entries n Hn) as [He _].
        unfold enum_settled in *. now rewrite Hget by reflexivity. }
      rewrite walk_obj, (handle_type_fixed n' Ht), (handle_enum_fixed n' He).
      cbv beta iota delta [bind]. rewrite walk_items_fixed; [reflexivity|].
      intros k v Hin. pose proof (In_get n' k v Hnd' Hin) as Hg.
      split; [now apply Hall | exact Hg].
Qed.

Lemma walk_items_get es : forall node node' k,
  walk_items walk es node = Ok node' ->
  is_nested_key k = false ->
  PyDict.get k node' = PyDict.get k node.
Proof.
  induction es as [|[k0 v0] es IH]; simpl; intros node node' k.
  - now intros [= <-].
  - destruct (walk_nested walk k0 v0 node) as [node1|] eqn:H1;
      cbv beta iota delta [bind]; [|discriminate].
    intros H Hk. rewrite (IH node1 node' k H Hk).
    apply walk_nested_walk in H1 as [-> | [Hk0 [v' ->]]]; [reflexivity|].
    apply get_set_other. intros ->. congruence.
Qed.

Lemma walk_items_has es : forall node node' k,
  walk_items walk es node = Ok node' ->
  PyDict.has k node = true -> PyDict.has k node' = true.
Proof.
  induction es as [|[k0 v0] es IH]; simpl; intros node node' k.
  - now intros [= <-].
  - destruct (walk_nested walk k0 v0 node) as [node1|] eqn:H1;
      cbv beta iota delta [bind]; [|discriminate].
    intros H Hk. apply (IH node1 node' k H).
    apply walk_nested_walk in H1 as [-> | [Hk0 [v' ->]]]; [exact Hk|].
    destruct (String.eqb k0 k) eqn:E.
    + apply String.eqb_eq in E. subst. apply has_set_same.
    + apply String.eqb_neq in E. now rewrite has_set_other.
Qed.

Lemma has_handle_type d k :
  PyDict.has k d = true -> PyDict.has k (handle_type d) = true.
Proof.
  intros H.
  assert (Hset : forall k' v, PyDict.has k (PyDict.set k' v d) = true).
  { intros k' v. destruct (String.eqb k' k) eqn:E.
    - apply String.eqb_eq in E. subst. apply has_set_same.
    - apply String.eqb_neq in E. now rewrite has_set_other. }
  assert (Hens : forall d0, PyDict.has k d0 = true ->
                            PyDict.has k (ensure_multipleOf d0) = true).
  { intros d0 H0. unfold ensure_multipleOf.
    destruct (PyDict.has "multipleOf" d0); [exact H0|].
    destruct (String.eqb "multipleOf" k) eqn:E.
    - apply String.eqb_eq in E. subst. apply has_set_same.
    - apply String.eqb_neq in E. now rewrite has_set_other. }
  unfold handle_type.
  destruct (PyDict.get "type" d) as [[| | | |s|t|]|]; try exact H.
  - destruct (String.eqb s "integer"); auto.
  - cbv zeta.
    match goal with
    | |- PyDict.has k (if ?c then _ else _) = true => destruct c
    end; auto.
Qed.

(** No key of a node is ever removed: in particular a ["oneOf"] or
    ["anyOf"] entry survives the sanitizer on every input. *)
Lemma walk_keeps_keys d j' k :
  walk (JObj d) = Ok j' -> PyDict.has k d = true ->
  exists d', j' = JObj d' /\ PyDict.has k d' = true.
Proof.
  intros Hw Hk. apply walk_obj_inv in Hw as (n & n' & Hn & Hn' & ->).
  exists n'. split; [reflexivity|].
  apply (walk_items_has d n n' k Hn').
  destruct (handled_cases d n Hn) as [_ [-> | [fs ->]]].
  - now apply has_handle_type.
  - destruct (String.eqb "enum" k) eqn:E.
    + apply String.eqb_eq in E. subst. apply has_set_same.
    + apply String.eqb_neq in E. rewrite has_set_other by exact E.
      now apply has_handle_type.
Qed.

(** [float] of the integers of the example. *)
Lemma float_of_small :
  float_of_Z 0 = Ok f0 /\ float_of_Z 1 = Ok f1
  /\ float_of_Z 2 = Ok f2 /\ float_of_Z 3 = Ok f3.
Proof. repeat split; reflexivity. Qed.

(** A finite binary64 value [m * 2^e] with [e <= 0] equals the integer [z]
    when [z * 2^(-e) = m]. *)
Lemma small_floats_exact :
  float_is_integer f0 0 /\ float_is_integer f1 1
  /\ float_is_integer f2 2 /\ float_is_integer f3 3.
Proof. unfold float_is_integer, f0, f1, f2, f3. repeat split; lia. Qed.

Lemma enum_promoted d d' v vs :
  sanitize (JObj d) = Ok (JObj d') ->
  PyDict.get "enum" d = Some (JArr (v :: vs)) ->
  forallb isinstance_int (v :: vs) = true ->
  exists fs,
    mapM py_float (v :: vs) = Ok fs
    /\ PyDict.get "enum" d' = Some (JArr fs)
    /\ (PyDict.get "type" d = Some (JStr "integer") ->
        PyDict.get "type" d' = Some (JStr "number")
        /\ PyDict.has "multipleOf" d' = true).
Proof.
  unfold sanitize. intros Hw He Hall.
  apply walk_obj_inv in Hw as (n & n' & Hn & Hn' & [= <-]).
  pose proof (handle_type_not_integer d) as Hni.
  assert (He1 : PyDict.get "enum" (handle_type d) = Some (JArr (v :: vs))).
  { rewrite get_handle_type by congruence. exact He. }
  unfold handle_enum in Hn. rewrite He1, Hall in Hn.
  destruct (mapM py_float (v :: vs)) as [fs|]; [|discriminate].
  cbv beta iota zeta delta [bind] in Hn.
  rewrite get_set_other in Hn by congruence.
  assert (Hn2 : n = PyDict.set "enum" (JArr fs) (handle_type d)).
  { destruct (PyDict.get "type" (handle_type d)); simpl in Hni;
      [rewrite Hni in Hn|]; congruence. }
  clear Hn. subst n. exists fs. split; [reflexivity|]. split.
  - rewrite (walk_items_get _ _ _ "enum" Hn') by reflexivity.
    apply get_set_same.
  - intros Hty. unfold PyDict.has.
    rewrite !(walk_items_get _ _ _ _ Hn') by reflexivity.
    rewrite !get_set_other by congruence.
    unfold handle_type. rewrite Hty. simpl.
    rewrite get_ensure_multipleOf, get_set_same by congruence.
    split; [reflexivity|]. apply has_ensure_multipleOf.
Qed.

(** C3.  The sanitizer is idempotent on schema-shaped trees: when
    [sanitize s] returns [s'], sanitizing [s'] returns [s'] again. *)
Theorem sanitize_idempotent (s s' : json) :
  schema_shaped s = true -> sanitize s = Ok s' -> sanitize s' = Ok s'.
Proof. intros Hshape Hs. exact (walk_idem s s' Hshape Hs). Qed.

Lemma sanitize_idempotent_witness :
  schema_shaped Examples.nested_schema = true
  /\ sanitize Examples.nested_schema = Ok Examples.nested_schema_sanitized
  /\ sanitize Examples.nested_schema_sanitized
     = Ok Examples.nested_schema_sanitized.
Proof.
  split; [reflexivity|]. split; [reflexivity|].
  apply (sanitize_idempotent Examples.nested_schema); reflexivity.
Defined.

(** Idempotence needs the shape: a ["type"] list that holds a
    list is unwrapped by one pass and rewritten by the next. *)
Lemma sanitize_twice_on_list_in_type :
  sanitize (JObj [("type", JArr [JArr [JStr "integer"]])])
  = Ok (JObj [("type", JArr [JStr "integer"])])
  /\ sanitize (JObj [("type", JArr [JStr "integer"])])
     = Ok (JObj [("type", JStr "number"); ("multipleOf", JInt 1)]).
Proof. split; reflexivity. Qed.

(** C4.  On a [oneOf] of an ["integer"] and a ["number"] branch the
    sanitizer walks the branches first, so the test for the pair
    integer/number sees ["number"] twice and the two branches are kept:
    the result still has the [oneOf] with both branches. *)
Theorem oneOf_integer_number_kept :
  sanitize Examples.integer_or_number
  = Ok (JObj [("oneOf",
               JArr [JObj [("type", JStr "number"); ("multipleOf", JInt 1)];
                     JObj [("type", JStr "number")]])])
  /\ sanitize Examples.integer_or_number
     <> Ok (JObj [("type", JStr "number"); ("multipleOf", JInt 1)]).
Proof. split; [reflexivity | discriminate]. Qed.

(** C5.  [{"type": "integer", "enum": [1, 2, 3]}] becomes the dictionary
    with the entries [type: "number"], [multipleOf: 1] and
    [enum: [1.0, 2.0, 3.0]]; and on every node an enum of integers is
    replaced by the floats of its members, an ["integer"] type by
    ["number"] with a [multipleOf]. *)
Theorem sanitize_integer_enum :
  (exists d,
      sanitize Examples.integer_enum = Ok (JObj d)
      /\ Permutation d [("type", JStr "number"); ("multipleOf", JInt 1);
                        ("enum", JArr [JFloat f1; JFloat f2; JFloat f3])])
  /\ forall d d' v vs,
      sanitize (JObj d) = Ok (JObj d') ->
      PyDict.get "enum" d = Some (JArr (v :: vs)) ->
      forallb isinstance_int (v :: vs) = true ->
      exists fs,
        mapM py_float (v :: vs) = Ok fs
        /\ PyDict.get "enum" d' = Some (JArr fs)
        /\ (PyDict.get "type" d = Some (JStr "integer") ->
            PyDict.get "type" d' = Some (JStr "number")
            /\ PyDict.has "multipleOf" d' = true).
Proof.
  split; [|exact enum_promoted].
  eexists. split; [reflexivity|].
  apply perm_skip. apply perm_swap.
Qed.

Lemma sanitize_integer_enum_witness :
  exists fs,
    mapM py_float [JInt 1; JInt 2; JInt 3] = Ok fs
    /\ PyDict.get "enum" Examples.integer_enum_sanitized = Some (JArr fs)
    /\ (PyDict.get "type" Examples.integer_enum_entries
        = Some (JStr "integer") ->
        PyDict.get "type" Examples.integer_enum_sanitized
        = Some (JStr "number")
        /\ PyDict.has "multipleOf" Examples.integer_enum_sanitized = true).
Proof.
  apply (proj2 sanitize_integer_enum Examples.integer_enum_entries
               Examples.integer_enum_sanitized (JInt 1) [JInt 2; JInt 3]);
    reflexivity.
Defined.

End SanitizerFacts.

(** ** Tools and the registry *)

Module ToolsFacts.
Import Tools PyDictFacts.

Section Validation.
Variable py_str : json -> string.
Variable py_new : pytype -> json -> res json.





Lemma bind_kwargs_free method named kwargs :
  (forall n, In n named -> PyDict.get n kwargs = None) ->
  bind_kwargs method named kwargs = Ok kwargs.
Proof.
  intros Hfree. unfold bind_kwargs.
  destruct (find (fun key => mem key named) (PyDict.keys kwargs))
    as [key|] eqn:F; [|reflexivity].
  apply find_some in F as [Hin Hmem]. unfold mem in Hmem.
  apply existsb_exists in Hmem as (n & Hn & E).
  apply String.eqb_eq in E. subst n.
  now apply (get_None_keys kwargs key) in Hin; [|apply Hfree].
Qed.


(** Once the keywords are bound, validation is the loop. *)
Lemma validate_parameters_bound tool kwargs :
  PyDict.get "self" kwargs = None ->
  validate_parameters py_str py_new tool kwargs
  = validate_loop py_str py_new kwargs (_parameters tool) [].
Proof.
  intros Hself. unfold validate_parameters.
  rewrite (bind_kwargs_free "validate_parameters" ["self"] kwargs);
    [reflexivity|].
  intros n [<- | []]. exact Hself.
Qed.


(** [PlaceholderTool.execute] returns what validation returns, formatted,
    and raises what the binding or validation raises. *)
Lemma placeholder_execute_bound tool kwargs :
  class_of tool = PlaceholderTool ->
  PyDict.get "self" kwargs = None ->
  PyDict.get "context" kwargs = None ->
  execute py_str py_new tool kwargs
  = (validated_params <- validate_parameters py_str py_new tool kwargs ;;
     Ok (JStr ("Placeholder tool '" ^ name tool
               ^ "' executed with parameters: "
               ^ py_str (JObj validated_params)))).
Proof.
  intros Hc Hself Hctx. unfold execute.
  rewrite (bind_kwargs_free "execute" ["self"; "context"] kwargs);
    [cbv beta iota delta [bind]; now rewrite Hc|].
  intros n [<- | [<- | []]]; assumption.
Qed.



End Validation.



(** C8.  Registering a tool under a name the registry already holds keeps
    the number of registered tools (and their order), and a lookup of the
    name then returns the second registration, hence its description and
    its executor; the call logs one debug record. *)
Theorem register_tool_replaces (registry : ToolRegistry) (tool : Tool) :
  PyDict.has (name tool) registry = true ->
  let registry' := fst (register_tool tool registry) in
  List.length (list_tools registry') = List.length (list_tools registry)
  /\ list_tools registry' = list_tools registry
  /\ get_tool (name tool) registry' = Some tool
  /\ option_map description (get_tool (name tool) registry')
     = Some (description tool)
  /\ option_map class_of (get_tool (name tool) registry')
     = Some (class_of tool)
  /\ snd (register_tool tool registry)
     = [log_debug ("Registered tool: " ^ name tool)].
Proof.
  intros Hhas. simpl. unfold list_tools, get_tool.
  rewrite get_set_same, keys_set_present by exact Hhas.
  repeat split.
Qed.

Lemma register_tool_replaces_witness :
  let registry' :=
    fst (register_tool Examples.list_dir_v2 (fst new_ToolRegistry)) in
  List.length (list_tools registry')
  = List.length (list_tools (fst new_ToolRegistry))
  /\ list_tools registry' = list_tools (fst new_ToolRegistry)
  /\ get_tool "list_dir" registry' = Some Examples.list_dir_v2
  /\ option_map description (get_tool "list_dir" registry')
     = Some "List a directory, newest first"
  /\ option_map class_of (get_tool "list_dir" registry')
     = Some (class_of Examples.list_dir_v2)
  /\ snd (register_tool Examples.list_dir_v2 (fst new_ToolRegistry))
     = [log_debug "Registered tool: list_dir"].
Proof.
  apply (register_tool_replaces (fst new_ToolRegistry) Examples.list_dir_v2).
  reflexivity.
Defined.

(** The eleven names of [builtin_tools], in order. *)
Lemma builtin_names :
  map fst builtin_tools
  = ["find_symbol"; "get_symbols_overview"; "find_referencing_symbols";
     "search_for_pattern"; "list_dir"; "find_file"; "edit_symbol";
     "create_file"; "delete_file"; "analyze_code"; "generate_report"].
Proof. reflexivity. Qed.

(** C10.  A fresh registry holds exactly the eleven built-in placeholder
    tools: [list_tools] returns their names, in the order of the table,
    and [get_tool] finds under each name the placeholder of that name and
    description. *)
Theorem new_registry_builtins :
  list_tools (fst new_ToolRegistry)
  = ["find_symbol"; "get_symbols_overview"; "find_referencing_symbols";
     "search_for_pattern"; "list_dir"; "find_file"; "edit_symbol";
     "create_file"; "delete_file"; "analyze_code"; "generate_report"]
  /\ List.length (list_tools (fst new_ToolRegistry)) = 11%nat
  /\ Forall (fun nd =>
               get_tool (fst nd) (fst new_ToolRegistry)
               = Some (new_PlaceholderTool (fst nd) (snd nd)))
            builtin_tools
  /\ forall n, get_tool n (fst new_ToolRegistry) <> None
               <-> In n (map fst builtin_tools).
Proof.
  split; [reflexivity|]. split; [reflexivity|]. split.
  - repeat constructor.
  - intros n. split.
    + intros H. apply (has_keys (fst new_ToolRegistry) n).
      unfold PyDict.has. unfold get_tool in H.
      destruct (PyDict.get n (fst new_ToolRegistry)); [reflexivity | congruence].
    + intros H. apply (has_keys (fst new_ToolRegistry) n) in H.
      unfold PyDict.has, get_tool in *.
      destruct (PyDict.get n (fst new_ToolRegistry)); [discriminate | discriminate].
Qed.

End ToolsFacts.

(** ** Contexts and modes *)

Module ContextModeFacts.
Import ContextMode Agent.

Lemma mem_In x l : mem x l = true <-> In x l.
Proof.
  unfold mem. rewrite existsb_exists. split.
  - intros (y & Hy & E). apply String.eqb_eq in E. now subst.
  - intros H. exists x. split; [exact H | apply String.eqb_refl].
Qed.

Lemma load_named_fallback {T} is_json_file path_str (read_as : string -> res T)
    builtins what What fallback arg d :
  PyDict.get arg builtins = None ->
  PyDict.get fallback builtins = Some d ->
  is_json_file arg = Ok false
  \/ (is_json_file arg = Ok true
      /\ exists e, read_as arg = Raise e /\ is_Exception e = true) ->
  exists logs,
    load_named is_json_file path_str read_as builtins what What fallback arg
    = (Ok d, logs ++ [log_warning (What ^ " '" ^ arg ^ "' not found, using "
                                   ^ fallback)]).
Proof.
  intros Harg Hd Hfile. unfold load_named. rewrite Harg, Hd.
  destruct Hfile as [-> | (-> & e & He & Hexc)].
  - exists []. reflexivity.
  - rewrite He, Hexc. eexists. reflexivity.
Qed.

(** What the file test raises leaves [load_named]: the test stands
    before [try]. *)
Lemma load_named_test_raises {T} is_json_file path_str
    (read_as : string -> res T) builtins what What fallback arg e :
  PyDict.get arg builtins = None ->
  is_json_file arg = Raise e ->
  load_named is_json_file path_str read_as builtins what What fallback arg
  = (Raise e, []).
Proof. intros Harg He. unfold load_named. now rewrite Harg, He. Qed.

(** When the file test answers, a string that names no preset and no
    loadable JSON file (no such file, or a file whose reading raises)
    makes neither [load] raise: each returns its built-in fallback, the
    context "default" and the mode "interactive", and logs the warning
    that says so last. *)
Lemma load_falls_back (is_json_file : string -> res bool)
    (path_str : string -> string)
    (read_context : string -> res SerenaAgentContext)
    (read_mode : string -> res SerenaAgentMode) (arg : string) :
  (PyDict.get arg builtin_contexts = None ->
   is_json_file arg = Ok false
   \/ (is_json_file arg = Ok true
       /\ exists e, read_context arg = Raise e /\ is_Exception e = true) ->
   exists logs,
     load_context is_json_file path_str read_context (inl arg)
     = (Ok Examples.default_context,
        logs ++ [log_warning ("Context '" ^ arg
                              ^ "' not found, using default")]))
  /\ (PyDict.get arg builtin_modes = None ->
      is_json_file arg = Ok false
      \/ (is_json_file arg = Ok true
          /\ exists e, read_mode arg = Raise e /\ is_Exception e = true) ->
      exists logs,
        load_mode is_json_file path_str read_mode (inl arg)
        = (Ok Examples.interactive_mode,
           logs ++ [log_warning ("Mode '" ^ arg
                                 ^ "' not found, using interactive")])).
Proof.
  split; intros Harg Hfile; simpl;
    now apply load_named_fallback.
Qed.

(** C9 fails on a name of 256 letters.  It names no preset and no file;
    on a file system whose names have at most 255 letters the test
    [Path(name).exists()], which stands before [try], raises [OSError],
    and so does [load], for a context and for a mode: no warning is
    logged and no default is returned. *)
Theorem load_raises_on_long_name :
  String.length Examples.long_name = 256%nat
  /\ PyDict.get Examples.long_name builtin_contexts = None
  /\ PyDict.get Examples.long_name builtin_modes = None
  /\ (forall path_str read_context,
         load_context Examples.name_limit path_str read_context
                      (inl Examples.long_name)
         = (Raise (OSError "[Errno 36] File name too long"), []))
  /\ (forall path_str read_mode,
         load_mode Examples.name_limit path_str read_mode
                   (inl Examples.long_name)
         = (Raise (OSError "[Errno 36] File name too long"), [])).
Proof.
  split; [vm_compute; reflexivity|].
  split; [vm_compute; reflexivity|].
  split; [vm_compute; reflexivity|].
  split; intros path_str read_as; simpl;
    apply load_named_test_raises; vm_compute; reflexivity.
Qed.

(** A preset name is answered from the table, without a look at the file
    system and without a warning. *)
Lemma load_presets is_json_file path_str read_context read_mode :
  load_context is_json_file path_str read_context (inl DEFAULT_CONTEXT)
  = (Ok Examples.default_context, [])
  /\ mapM (fun mode => fst (load_mode is_json_file path_str read_mode
                                     (inl mode)))
          DEFAULT_MODES
     = Ok [Examples.interactive_mode; Examples.editing_mode].
Proof. split; reflexivity. Qed.

(** The agent offers the whole registry, whatever its configuration. *)
Lemma available_tools_unfiltered config :
  available_tool_names (fst (new_SerenaAgent config))
  = map fst Tools.builtin_tools
  /\ available_tool_names (fst (new_SerenaAgent config))
     = Tools.list_tools (tool_registry (fst (new_SerenaAgent config))).
Proof. split; reflexivity. Qed.

(** C2, as the code has it.  A name in [disabled_tools] of a mode is not
    enabled in that mode, whatever [enabled_tools] holds; the tools an
    agent offers are the whole registry for every configuration, so
    neither modes nor context remove a name from them. *)
Theorem disabled_tool_not_enabled (m : SerenaAgentMode) (x : string) :
  In x (disabled_tools m) ->
  is_tool_enabled m x = false
  /\ (forall enabled,
         is_tool_enabled
           (mk_mode (mode_name m) (mode_description m) enabled
                    (disabled_tools m) (mode_settings m)) x = false)
  /\ forall config,
      available_tool_names (fst (new_SerenaAgent config))
      = map fst Tools.builtin_tools.
Proof.
  intros Hx. apply mem_In in Hx.
  split; [|split].
  - unfold is_tool_enabled. now rewrite Hx.
  - intros enabled. unfold is_tool_enabled. simpl. now rewrite Hx.
  - intros config. reflexivity.
Qed.

Lemma disabled_tool_not_enabled_witness :
  is_tool_enabled Examples.analysis_mode "edit_symbol" = false
  /\ (forall enabled,
         is_tool_enabled
           (mk_mode (mode_name Examples.analysis_mode)
                    (mode_description Examples.analysis_mode) enabled
                    (disabled_tools Examples.analysis_mode)
                    (mode_settings Examples.analysis_mode)) "edit_symbol"
         = false)
  /\ forall config,
      available_tool_names (fst (new_SerenaAgent config))
      = map fst Tools.builtin_tools.
Proof.
  apply (disabled_tool_not_enabled Examples.analysis_mode "edit_symbol").
  simpl. tauto.
Defined.

(** C2, as the claim has it, fails: with the mode "analysis" active,
    [edit_symbol] is in its [disabled_tools] and not enabled, and it is
    among the tools the agent offers all the same. *)
Lemma disabled_tool_still_available :
  PyDict.get "analysis" builtin_modes = Some Examples.analysis_mode
  /\ In Examples.analysis_mode
        (modes (fst (new_SerenaAgent Examples.analysis_config)))
  /\ In "edit_symbol" (disabled_tools Examples.analysis_mode)
  /\ is_tool_enabled Examples.analysis_mode "edit_symbol" = false
  /\ In "edit_symbol"
        (available_tool_names
           (fst (new_SerenaAgent Examples.analysis_config))).
Proof.
  split; [reflexivity|]. split; [now left|].
  split; [now left|]. split; [reflexivity|].
  simpl. tauto.
Qed.

End ContextModeFacts.

(** ** The protocol adapter *)

Module MCPFacts.
Import Tools ContextMode Agent MCP PyDictFacts.

(** The sanitizer leaves a tool descriptor as it is: the keys of its top
    level are [name], [description] and [parameters], none of which the
    walk acts on. *)
Lemma sanitize_descriptor tool :
  Sanitizer.sanitize (get_schema tool) = Ok (get_schema tool).
Proof. reflexivity. Qed.

(** No wrapper is returned, with the option or without it. *)
Lemma create_mcp_tool_raises tool b :
  _create_mcp_tool tool b = Raise (NameError "name 'mcp' is not defined").
Proof.
  unfold _create_mcp_tool. destruct b; [|reflexivity].
  now rewrite sanitize_descriptor.
Qed.

Lemma set_append {V} (d : PyDict.t V) k v :
  ~ In k (PyDict.keys d) -> PyDict.set k v d = d ++ [(k, v)].
Proof.
  induction d as [|[k' v'] d IH]; simpl; [reflexivity|].
  intros H. destruct (String.eqb k' k) eqn:E.
  - apply String.eqb_eq in E. tauto.
  - f_equal. apply IH. tauto.
Qed.

Lemma new_registry_ok : registry_ok (fst new_ToolRegistry).
Proof.
  split.
  - apply (SanitizerFacts.distinct_NoDup (PyDict.keys (fst new_ToolRegistry))).
    reflexivity.
  - repeat constructor.
Qed.

(** The loop stops at its first tool. *)
Lemma register_all_raises FastMCP
    (mcp_register_tool : FastMCP -> Tool -> res FastMCP) tool tools b mcp :
  register_all FastMCP mcp_register_tool (tool :: tools) b mcp
  = Raise (NameError "name 'mcp' is not defined").
Proof. cbn [register_all]. now rewrite create_mcp_tool_raises. Qed.

(** What the body of the wrapper does with an exception of the executor:
    an instance of [Exception] is logged and answered by the payload
    ["Error: ..."]. *)
Lemma wrapper_body_catches py_str py_new tool kwargs e :
  execute py_str py_new tool kwargs = Raise e ->
  is_Exception e = true ->
  mcp_tool_wrapper py_str py_new tool kwargs
  = (Ok ("Error: " ^ exn_str e),
     [log_error ("Error executing tool " ^ name tool ^ ": " ^ exn_str e)]).
Proof.
  intros Hraise Hexc. unfold mcp_tool_wrapper. now rewrite Hraise, Hexc.
Qed.

(** C7 fails on the first tool the adapter is given.  The body of
    [mcp_tool_wrapper] has the handler the claim describes, but
    [_create_mcp_tool] raises [NameError] on the decorator line, before
    the wrapper exists: for the built-in tool [find_symbol], for every
    tool, with the option and without it; and [_register_tools] raises it
    for the agent of every configuration, so that no handler is bound and
    no call through the adapter can be answered, by an error payload or
    otherwise. *)
Theorem wrapper_is_never_created :
  _create_mcp_tool
    (new_PlaceholderTool "find_symbol" "Find symbols in the codebase") false
  = Raise (NameError "name 'mcp' is not defined")
  /\ (forall tool openai_tool_compatible,
         _create_mcp_tool tool openai_tool_compatible
         = Raise (NameError "name 'mcp' is not defined"))
  /\ (forall FastMCP (mcp_register_tool : FastMCP -> Tool -> res FastMCP)
             (mcp : FastMCP) config openai_tool_compatible,
         _register_tools FastMCP mcp_register_tool mcp
                         (fst (new_SerenaAgent config))
                         openai_tool_compatible
         = Raise (NameError "name 'mcp' is not defined")).
Proof.
  split; [reflexivity|]. split; [exact create_mcp_tool_raises|].
  intros FastMCP mcp_register_tool mcp config b.
  unfold _register_tools.
  change (get_available_tools (fst (new_SerenaAgent config)))
    with (PyDict.values (fst new_ToolRegistry)).
  apply register_all_raises.
Qed.



End MCPFacts.

(** * Further properties *)

(** ** Dictionaries: removal *)

Module PyDictLaws.
Import PyDict PyDictFacts.

Section Laws.
Context {V : Type}.
Implicit Types (d : PyDict.t V) (k : string) (v : V).

Lemma get_pop_other d k k' : k <> k' -> get k' (pop k d) = get k' d.
Proof.
  intros Hne. induction d as [|[k0 v0] d IH]; simpl; [reflexivity|].
  destruct (String.eqb k0 k) eqn:E; simpl.
  - apply String.eqb_eq in E. subst k0.
    destruct (String.eqb k k') eqn:E'; [|reflexivity].
    apply String.eqb_eq in E'. congruence.
  - now rewrite IH.
Qed.

Lemma get_pop_same d k : NoDup (keys d) -> get k (pop k d) = None.
Proof.
  induction d as [|[k0 v0] d IH]; simpl; [reflexivity|].
  intros Hnd. inversion Hnd as [|? ? Hnotin Hnd']; subst.
  destruct (String.eqb k0 k) eqn:E; simpl.
  - apply String.eqb_eq in E. subst k0. now apply get_None_keys.
  - rewrite E. auto.
Qed.

Lemma pop_absent d k : get k d = None -> pop k d = d.
Proof.
  induction d as [|[k0 v0] d IH]; simpl; [reflexivity|].
  destruct (String.eqb k0 k); [discriminate|]. intros H. now rewrite IH.
Qed.

Lemma pop_set_absent d k v : get k d = None -> pop k (set k v d) = d.
Proof.
  induction d as [|[k0 v0] d IH]; simpl.
  - now rewrite String.eqb_refl.
  - destruct (String.eqb k0 k) eqn:E; [discriminate|]. intros H.
    simpl. rewrite E. now rewrite IH.
Qed.

Lemma In_pop d k kv : In kv (pop k d) -> In kv d.
Proof.
  induction d as [|[k0 v0] d IH]; simpl; [tauto|].
  destruct (String.eqb k0 k); simpl; tauto.
Qed.

Lemma NoDup_keys_pop d k : NoDup (keys d) -> NoDup (keys (pop k d)).
Proof.
  induction d as [|[k0 v0] d IH]; simpl; [auto|].
  intros Hnd. inversion Hnd as [|? ? Hnotin Hnd']; subst.
  destruct (String.eqb k0 k); [exact Hnd'|].
  simpl. constructor; [|auto].
  intros Hin. apply Hnotin. unfold keys in *.
  apply in_map_iff in Hin as ([k1 v1] & Hk & Hin). simpl in Hk. subst k1.
  apply In_pop in Hin. apply (in_map fst) in Hin. exact Hin.
Qed.

Lemma In_set d k v kv : In kv (set k v d) -> kv = (k, v) \/ In kv d.
Proof.
  induction d as [|[k0 v0] d IH]; simpl.
  - intros [<- | []]. now left.
  - destruct (String.eqb k0 k); simpl; intros [H | H]; auto.
    destruct (IH H); auto.
Qed.

End Laws.
End PyDictLaws.

(** ** The registry: further laws *)

Module RegistryLaws.
Import Tools PyDictFacts PyDictLaws.

Lemma registry_ok_register tool registry :
  registry_ok registry -> registry_ok (fst (register_tool tool registry)).
Proof.
  intros [Hnd Hnames]. split; simpl.
  - now apply NoDup_keys_set.
  - apply Forall_forall. intros kt Hin.
    apply In_set in Hin as [-> | Hin]; [reflexivity|].
    rewrite Forall_forall in Hnames. now apply Hnames.
Qed.

Lemma registry_ok_unregister n registry :
  registry_ok registry -> registry_ok (fst (unregister_tool n registry)).
Proof.
  intros [Hnd Hnames]. unfold unregister_tool.
  destruct (PyDict.has n registry); [|now split]. split; simpl.
  - now apply NoDup_keys_pop.
  - apply Forall_forall. intros kt Hin. apply In_pop in Hin.
    rewrite Forall_forall in Hnames. now apply Hnames.
Qed.

(** X1.  The registry invariant: every tool is stored under its own name
    and no name occurs twice.  It holds of a fresh registry and is kept by
    [register_tool] and by [unregister_tool]. *)
Theorem registry_invariant :
  registry_ok (fst new_ToolRegistry)
  /\ (forall tool registry,
         registry_ok registry ->
         registry_ok (fst (register_tool tool registry)))
  /\ (forall n registry,
         registry_ok registry ->
         registry_ok (fst (unregister_tool n registry))).
Proof.
  split; [|split].
  - split.
    + apply (SanitizerFacts.distinct_NoDup
               (PyDict.keys (fst new_ToolRegistry))). reflexivity.
    + repeat constructor.
  - exact registry_ok_register.
  - exact registry_ok_unregister.
Qed.

Lemma registry_invariant_witness :
  registry_ok
    (fst (unregister_tool "find_file"
            (fst (register_tool Examples.list_dir_v2
                    (fst new_ToolRegistry))))).
Proof.
  destruct registry_invariant as (H0 & Hreg & Hunreg).
  apply Hunreg, Hreg, H0.
Defined.

(** X2.  Unregistering removes the name and nothing else: afterwards the
    name is not found, every other name is found as before, and one debug
    record is logged; for a name the registry does not hold, the registry
    is returned as it is and nothing is logged. *)
Theorem unregister_tool_removes (n : string) (registry : ToolRegistry) :
  registry_ok registry ->
  get_tool n (fst (unregister_tool n registry)) = None
  /\ (forall m, m <> n ->
                get_tool m (fst (unregister_tool n registry))
                = get_tool m registry)
  /\ (get_tool n registry = None ->
      unregister_tool n registry = (registry, []))
  /\ (get_tool n registry <> None ->
      snd (unregister_tool n registry)
      = [log_debug ("Unregistered tool: " ^ n)]
      /\ List.length (list_tools (fst (unregister_tool n registry)))
         = pred (List.length (list_tools registry))).
Proof.
  intros [Hnd _]. unfold unregister_tool, get_tool, PyDict.has, list_tools.
  destruct (PyDict.get n registry) as [t|] eqn:Hn; simpl.
  - split; [now apply get_pop_same|]. split.
    + intros m Hm. apply get_pop_other. congruence.
    + split; [discriminate|]. intros _. split; [reflexivity|].
      clear Hnd. revert Hn. induction registry as [|[k0 v0] r IH]; simpl;
        [discriminate|].
      destruct (String.eqb k0 n); [reflexivity|].
      intros H. simpl. rewrite (IH H).
      destruct r as [|[k1 v1] r]; [discriminate H | reflexivity].
  - split; [exact Hn|]. split; [reflexivity|].
    split; [reflexivity | congruence].
Qed.

Lemma unregister_tool_removes_witness :
  get_tool "find_file" (fst (unregister_tool "find_file" (fst new_ToolRegistry)))
  = None
  /\ (forall m, m <> "find_file" ->
                get_tool m (fst (unregister_tool "find_file"
                                                 (fst new_ToolRegistry)))
                = get_tool m (fst new_ToolRegistry))
  /\ (get_tool "find_file" (fst new_ToolRegistry) = None ->
      unregister_tool "find_file" (fst new_ToolRegistry)
      = (fst new_ToolRegistry, []))
  /\ (get_tool "find_file" (fst new_ToolRegistry) <> None ->
      snd (unregister_tool "find_file" (fst new_ToolRegistry))
      = [log_debug ("Unregistered tool: " ^ "find_file")]
      /\ List.length (list_tools (fst (unregister_tool "find_file"
                                         (fst new_ToolRegistry))))
         = pred (List.length (list_tools (fst new_ToolRegistry)))).
Proof.
  apply (unregister_tool_removes "find_file" (fst new_ToolRegistry)).
  exact MCPFacts.new_registry_ok.
Defined.

(** X3.  Registering a tool under a name the registry does not hold
    appends it: the listing is the old one followed by the new name, the
    new name is found, and every other lookup is as before. *)
Theorem register_tool_appends (tool : Tool) (registry : ToolRegistry) :
  get_tool (name tool) registry = None ->
  list_tools (fst (register_tool tool registry))
  = list_tools registry ++ [name tool]
  /\ get_tool (name tool) (fst (register_tool tool registry)) = Some tool
  /\ forall m, m <> name tool ->
               get_tool m (fst (register_tool tool registry))
               = get_tool m registry.
Proof.
  intros Hnew. unfold list_tools, get_tool in *. simpl.
  split; [|split].
  - apply keys_set_absent. unfold PyDict.has. now rewrite Hnew.
  - apply get_set_same.
  - intros m Hm. apply get_set_other. congruence.
Qed.

Lemma register_tool_appends_witness :
  list_tools (fst (register_tool Examples.boom_tool (fst new_ToolRegistry)))
  = list_tools (fst new_ToolRegistry) ++ ["boom"]
  /\ get_tool "boom" (fst (register_tool Examples.boom_tool
                                         (fst new_ToolRegistry)))
     = Some Examples.boom_tool
  /\ forall m, m <> "boom" ->
               get_tool m (fst (register_tool Examples.boom_tool
                                              (fst new_ToolRegistry)))
               = get_tool m (fst new_ToolRegistry).
Proof.
  apply (register_tool_appends Examples.boom_tool (fst new_ToolRegistry)).
  reflexivity.
Defined.

(** X4.  Registering a tool under a new name and unregistering that name
    gives the registry back. *)
Theorem register_unregister_round_trip (tool : Tool)
    (registry : ToolRegistry) :
  get_tool (name tool) registry = None ->
  fst (unregister_tool (name tool) (fst (register_tool tool registry)))
  = registry.
Proof.
  intros Hnew. unfold unregister_tool, get_tool in *. simpl.
  rewrite has_set_same. simpl. now apply pop_set_absent.
Qed.

Lemma register_unregister_round_trip_witness :
  fst (unregister_tool "boom"
         (fst (register_tool Examples.boom_tool (fst new_ToolRegistry))))
  = fst new_ToolRegistry.
Proof.
  apply (register_unregister_round_trip Examples.boom_tool
           (fst new_ToolRegistry)).
  reflexivity.
Defined.

End RegistryLaws.

(** ** Validation and descriptors: further laws *)

Module ValidationLaws.
Import Tools PyDictFacts.

Section Validation.
Variable py_str : json -> string.
Variable py_new : pytype -> json -> res json.

Lemma mem_cons key n l : mem key (n :: l) = String.eqb key n || mem key l.
Proof. reflexivity. Qed.

Lemma validate_loop_supplied kwargs params : forall acc,
  (forall p, In p params ->
             exists v, PyDict.get (param_name p) kwargs = Some v
                       /\ isinstance v (param_type p) = true) ->
  exists validated,
    validate_loop py_str py_new kwargs params acc = Ok validated
    /\ forall key,
        PyDict.get key validated
        = if mem key (map param_name params) then PyDict.get key kwargs
          else PyDict.get key acc.
Proof.
  induction params as [|p params IH]; intros acc Hall.
  - exists acc. split; reflexivity.
  - destruct (Hall p (or_introl eq_refl)) as (v & Hv & Hinst).
    destruct (IH (PyDict.set (param_name p) v acc)) as (validated & Hok & Hget).
    { intros q Hq. apply Hall. now right. }
    exists validated. split.
    + simpl. unfold validate_parameter, coerce. rewrite Hv, Hinst.
      cbv beta iota delta [bind]. exact Hok.
    + intros key. rewrite Hget. simpl map. rewrite mem_cons.
      destruct (mem key (map param_name params)) eqn:Hm;
        [now rewrite orb_true_r|]. rewrite orb_false_r.
      destruct (String.eqb key (param_name p)) eqn:E.
      * apply String.eqb_eq in E. subst key. now rewrite get_set_same.
      * apply String.eqb_neq in E. apply get_set_other. congruence.
Qed.

(** X5.  A call without a keyword [self] that gives every declared
    parameter a value of its declared type validates; the result holds,
    under the name of each parameter, the value the call supplied, and
    nothing else. *)
Theorem validate_well_typed_call (tool : Tool) (kwargs : dict) :
  PyDict.get "self" kwargs = None ->
  (forall p, In p (_parameters tool) ->
             exists v, PyDict.get (param_name p) kwargs = Some v
                       /\ isinstance v (param_type p) = true) ->
  exists validated,
    validate_parameters py_str py_new tool kwargs = Ok validated
    /\ (forall p, In p (_parameters tool) ->
                  PyDict.get (param_name p) validated
                  = PyDict.get (param_name p) kwargs)
    /\ (forall key,
           ~ In key (map param_name (_parameters tool)) ->
           PyDict.get key validated = None).
Proof.
  intros Hself Hall.
  destruct (validate_loop_supplied kwargs (_parameters tool) [] Hall)
    as (validated & Hok & Hget).
  exists validated.
  split; [now rewrite ToolsFacts.validate_parameters_bound|]. split.
  - intros p Hp. rewrite Hget.
    assert (Hm : mem (param_name p) (map param_name (_parameters tool)) = true).
    { apply ContextModeFacts.mem_In. now apply in_map. }
    now rewrite Hm.
  - intros key Hkey. rewrite Hget.
    destruct (mem key (map param_name (_parameters tool))) eqn:Hm;
      [|reflexivity].
    apply ContextModeFacts.mem_In in Hm. contradiction.
Qed.


Lemma placeholder_validates n d kwargs :
  PyDict.get "self" kwargs = None ->
  exists validated,
    validate_parameters py_str py_new (new_PlaceholderTool n d) kwargs
    = Ok validated
    /\ PyDict.has "query" validated = true
    /\ PyDict.has "path" validated = true.
Proof.
  intros Hself. rewrite ToolsFacts.validate_parameters_bound by exact Hself.
  simpl _parameters. unfold validate_loop.
  assert (Hstep : forall pname pdesc dflt acc,
             is_None dflt = false ->
             exists w,
               validate_parameter py_str py_new kwargs
                 (mk_param pname PyStr pdesc false dflt) acc
               = Ok (PyDict.set pname w acc)).
  { intros pname pdesc dflt acc Hd. unfold validate_parameter, coerce.
    simpl. rewrite Hd.
    destruct (PyDict.get pname kwargs) as [value|].
    - destruct value; simpl; eauto.
    - simpl. eauto. }
  destruct (Hstep "query" "Query or search term" (JStr "") [] eq_refl)
    as [w1 ->].
  cbv beta iota delta [bind].
  destruct (Hstep "path" "File or directory path" (JStr ".")
                  (PyDict.set "query" w1 []) eq_refl) as [w2 ->].
  cbv beta iota delta [bind]. eexists. split; [reflexivity|].
  split; reflexivity.
Qed.

(** X7.  A placeholder tool accepts every call whose keywords are not
    [self] or [context], the two names of its signature: validation
    succeeds with an entry for [query] and one for [path], and [execute]
    returns the text that names the tool and shows the validated
    arguments. *)
Theorem placeholder_accepts_call (n d : string) (kwargs : dict) :
  PyDict.get "self" kwargs = None ->
  PyDict.get "context" kwargs = None ->
  exists validated,
    validate_parameters py_str py_new (new_PlaceholderTool n d) kwargs
    = Ok validated
    /\ PyDict.has "query" validated = true
    /\ PyDict.has "path" validated = true
    /\ execute py_str py_new (new_PlaceholderTool n d) kwargs
       = Ok (JStr ("Placeholder tool '" ^ n
                   ^ "' executed with parameters: "
                   ^ py_str (JObj validated))).
Proof.
  intros Hself Hctx.
  destruct (placeholder_validates n d kwargs Hself)
    as (validated & Hok & Hq & Hp).
  exists validated. repeat (split; [assumption|]).
  rewrite ToolsFacts.placeholder_execute_bound by (reflexivity || assumption).
  now rewrite Hok.
Qed.

End Validation.

Lemma validate_well_typed_call_witness :
  exists validated,
    validate_parameters Examples.any_str Examples.any_new
      Examples.copy_tool Examples.copy_call = Ok validated
    /\ (forall p, In p (_parameters Examples.copy_tool) ->
                  PyDict.get (param_name p) validated
                  = PyDict.get (param_name p) Examples.copy_call)
    /\ (forall key,
           ~ In key (map param_name (_parameters Examples.copy_tool)) ->
           PyDict.get key validated = None).
Proof.
  apply (validate_well_typed_call Examples.any_str Examples.any_new
           Examples.copy_tool Examples.copy_call).
  - reflexivity.
  - intros p [<- | [<- | []]]; eexists; split; reflexivity.
Defined.

Lemma placeholder_accepts_call_witness :
  exists validated,
    validate_parameters Examples.any_str Examples.any_new
      (new_PlaceholderTool "list_dir" "List directory contents")
      [("path", JStr "src"); ("depth", JInt 2)]
    = Ok validated
    /\ PyDict.has "query" validated = true
    /\ PyDict.has "path" validated = true
    /\ execute Examples.any_str Examples.any_new
         (new_PlaceholderTool "list_dir" "List directory contents")
         [("path", JStr "src"); ("depth", JInt 2)]
       = Ok (JStr ("Placeholder tool '" ^ "list_dir"
                   ^ "' executed with parameters: "
                   ^ Examples.any_str (JObj validated))).
Proof.
  apply (placeholder_accepts_call Examples.any_str Examples.any_new
           "list_dir" "List directory contents"
           [("path", JStr "src"); ("depth", JInt 2)]); reflexivity.
Defined.


Lemma fold_set_fresh {A V} (key : A -> string) (val : A -> V) l :
  forall acc : PyDict.t V,
  NoDup (PyDict.keys acc ++ map key l) ->
  fold_left (fun d a => PyDict.set (key a) (val a) d) l acc
  = acc ++ map (fun a => (key a, val a)) l.
Proof.
  induction l as [|a l IH]; simpl; intros acc Hnd.
  - now rewrite app_nil_r.
  - rewrite MCPFacts.set_append.
    + rewrite IH.
      * now rewrite <- app_assoc.
      * unfold PyDict.keys in *. rewrite map_app, <- app_assoc. exact Hnd.
    + apply NoDup_remove_2 in Hnd. intros Hin. apply Hnd.
      apply in_or_app. now left.
Qed.

(** X8.  The descriptor of a tool whose parameters have distinct names
    lists, under [properties], one entry per parameter in declaration
    order, with the JSON type of its Python type and its description, and
    under [required] the names of the required parameters in that
    order. *)
Theorem get_schema_lists_parameters (tool : Tool) :
  NoDup (map param_name (_parameters tool)) ->
  get_schema tool
  = JObj [("name", JStr (name tool));
          ("description", JStr (description tool));
          ("parameters",
           JObj [("type", JStr "object");
                 ("properties",
                  JObj (map (fun p =>
                               (param_name p,
                                JObj [("type",
                                       JStr (_get_json_type (param_type p)));
                                      ("description",
                                       JStr (param_description p))]))
                            (_parameters tool)));
                 ("required",
                  JArr (map (fun p => JStr (param_name p))
                            (filter param_required (_parameters tool))))])].
Proof.
  intros Hnd. unfold get_schema.
  rewrite (fold_set_fresh param_name
             (fun p => JObj [("type", JStr (_get_json_type (param_type p)));
                             ("description", JStr (param_description p))])
             (_parameters tool) []) by exact Hnd.
  reflexivity.
Qed.

Lemma get_schema_lists_parameters_witness :
  get_schema Examples.copy_tool
  = JObj [("name", JStr "copy");
          ("description", JStr "Copy files");
          ("parameters",
           JObj [("type", JStr "object");
                 ("properties",
                  JObj [("paths",
                         JObj [("type", JStr "array");
                               ("description", JStr "Files to copy")]);
                        ("target",
                         JObj [("type", JStr "string");
                               ("description",
                                JStr "Destination directory")])]);
                 ("required", JArr [JStr "paths"; JStr "target"])])].
Proof.
  apply (get_schema_lists_parameters Examples.copy_tool).
  apply (SanitizerFacts.distinct_NoDup
           (map param_name (_parameters Examples.copy_tool))).
  reflexivity.
Defined.

End ValidationLaws.

(** ** The sanitizer: further laws *)

Module SanitizerLaws.
Import Sanitizer Shape Derived PyDictFacts SanitizerFacts.

(** What one iteration of the loop does to the node: nothing, when the
    value is not one the walk descends into, or the walked child written
    back under its key. *)
Lemma walk_nested_result k v nd nd' :
  walk_nested walk k v nd = Ok nd' ->
  (nd' = nd /\ forall f, shaped_child f k v = true)
  \/ (is_nested_key k = true
      /\ exists v', nd' = PyDict.set k v' nd
         /\ ((exists d, v = JObj d /\ mem k structural_keys = true
                        /\ walk v = Ok v')
             \/ (exists items items',
                    v = JArr items /\ v' = JArr items'
                    /\ mapM walk items = Ok items'))).
Proof.
  unfold walk_nested, shaped_child.
  destruct (mem k structural_keys) eqn:Hs.
  - destruct v as [| | | | |items|entries];
      try (intros [= <-]; left; split; [reflexivity | now intros g]).
    + destruct (mapM walk items) as [items'|] eqn:Hm;
        cbv beta iota zeta delta [bind]; [|discriminate].
      intros [= <-]. right. split; [now apply is_nested_structural|].
      exists (JArr items'). split; [reflexivity|]. right. eauto.
    + destruct (walk (JObj entries)) as [v'|] eqn:Hw;
        cbv beta iota zeta delta [bind]; [|discriminate].
      intros [= <-]. right. split; [now apply is_nested_structural|].
      exists v'. split; [reflexivity|]. left. eauto.
  - destruct (mem k combinator_keys) eqn:Hc;
      [|intros [= <-]; left; split; [reflexivity | now intros g]].
    destruct v as [| | | | |items|entries];
      try (intros [= <-]; left; split; [reflexivity | now intros g]).
    destruct (mapM walk items) as [items'|] eqn:Hm;
      cbv beta iota zeta delta [bind]; [|discriminate].
    intros H. right. split; [now apply is_nested_combinator|].
    exists (JArr items'). split; [|right; eauto].
    destruct (mem k simplified_keys && (List.length items' =? 2)%nat);
      [|now injection H as <-].
    destruct (mapM item_type items') as [types|] eqn:Hty; [|discriminate].
    destruct (types_are_integer_number types) as [same|] eqn:Hsame;
      [|discriminate].
    assert (Hni : Forall not_integer items').
    { apply mapM_Forall2 in Hm. clear -Hm.
      induction Hm; constructor; eauto using walk_not_integer. }
    rewrite (no_merge items' types Hni Hty same Hsame) in H.
    now injection H as <-.
Qed.

(** The loop over a dictionary with distinct keys establishes, for every
    entry of the result, a property that each iteration establishes for
    the child it writes. *)
Lemma walk_items_each (R : string -> json -> Prop) es : forall node node',
  (forall k v, is_nested_key k = false -> R k v) ->
  NoDup (PyDict.keys es) ->
  (forall k v, In (k, v) es -> is_nested_key k = true ->
               PyDict.get k node = Some v) ->
  (forall k v, In (k, v) es ->
     forall nd nd', walk_nested walk k v nd = Ok nd' ->
       (nd' = nd /\ R k v)
       \/ (is_nested_key k = true
           /\ exists v', nd' = PyDict.set k v' nd /\ R k v')) ->
  (forall k v, PyDict.get k node = Some v ->
               In k (PyDict.keys es) \/ R k v) ->
  walk_items walk es node = Ok node' ->
  PyDict.keys node' = PyDict.keys node
  /\ (forall k, is_nested_key k = false ->
                PyDict.get k node' = PyDict.get k node)
  /\ (forall k v, PyDict.get k node' = Some v -> R k v).
Proof.
  intros node node' Hplain. revert node node'.
  induction es as [|[k0 v0] es IH]; simpl; intros node node' Hnd Hin Hstep Hrest.
  - intros [= <-]. split; [reflexivity | split; [reflexivity|]].
    intros k v Hk. destruct (Hrest k v Hk) as [[]|]; assumption.
  - inversion Hnd as [|? ? Hk0 Hnd']; subst.
    destruct (walk_nested walk k0 v0 node) as [node1|] eqn:H1;
      cbv beta iota delta [bind]; [|discriminate].
    intros H.
    apply (Hstep k0 v0 (or_introl eq_refl)) in H1.
    destruct H1 as [[-> Hr] | (Hnest & v' & -> & Hr)].
    + apply (IH node node'); auto.
      intros k v Hk. destruct (Hrest k v Hk) as [[<- | Hr'] | Hr']; auto.
      right. destruct (is_nested_key k0) eqn:Hn; [|now apply Hplain].
      rewrite (Hin k0 v0 (or_introl eq_refl) Hn) in Hk.
      now injection Hk as <-.
    + assert (Hhas : PyDict.has k0 node = true).
      { unfold PyDict.has. now rewrite (Hin k0 v0 (or_introl eq_refl) Hnest). }
      destruct (IH (PyDict.set k0 v' node) node') as (Hkeys & Hget & Hall);
        auto.
      * intros k v Hkv Hn. rewrite get_set_other; [now auto|].
        intros ->. apply Hk0. apply (in_map fst) in Hkv. exact Hkv.
      * intros k v Hk. destruct (String.eqb k0 k) eqn:E.
        -- apply String.eqb_eq in E; subst k.
           rewrite get_set_same in Hk. injection Hk as <-. now right.
        -- apply String.eqb_neq in E. rewrite get_set_other in Hk by exact E.
           destruct (Hrest k v Hk) as [[Heq | Hr'] | Hr']; auto. congruence.
      * split; [|split].
        -- rewrite Hkeys. now apply keys_set_present.
        -- intros k Hk. rewrite Hget by exact Hk. apply get_set_other.
           intros ->. congruence.
        -- exact Hall.
Qed.

(** [clears c]: what [walk] returns for a shaped [c] is [sanitized]. *)
Lemma mapM_walk_sanitized items items' :
  Forall (fun c => forall c', schema_shaped c = true -> walk c = Ok c' ->
                              sanitized c' = true) items ->
  forallb schema_shaped items = true ->
  mapM walk items = Ok items' -> forallb sanitized items' = true.
Proof.
  intros Hall Hsh Hm. apply mapM_Forall2 in Hm.
  rewrite forallb_forall in Hsh. apply forallb_forall.
  induction Hm as [|x y l l' Hxy _ IH]; [intros c []|].
  inversion Hall as [|? ? Hx Hl]; subst.
  intros c [Hc | Hc].
  - subst c. apply (Hx y); [apply Hsh; now left | exact Hxy].
  - apply IH; auto. intros c0 Hc0. apply Hsh. now right.
Qed.

Lemma walk_sanitized j :
  forall j', schema_shaped j = true -> walk j = Ok j' -> sanitized j' = true.
Proof.
  induction j using json_schema_ind.
  - intros j' _. rewrite walk_leaf by assumption. intros [= <-].
    destruct j; try reflexivity. now destruct (H entries).
  - intros j' Hshape Hw.
    apply walk_obj_inv in Hw as (n & n' & Hn & Hn' & ->).
    simpl in Hshape. apply andb_true_iff in Hshape as [Hshape Hkids].
    apply andb_true_iff in Hshape as [Hdist Htype].
    apply distinct_NoDup in Hdist. rewrite forallb_forall in Hkids.
    destruct (walk_items_each
                (fun k v => shaped_child sanitized k v = true)
                entries n n') as (Hkeys & Hget & Hall); auto.
    + intros k v Hk. unfold shaped_child, is_nested_key in *.
      apply orb_false_iff in Hk as [-> ->]. reflexivity.
    + intros k v Hin Hk. rewrite (handle_keeps_children entries n k Hn Hk).
      now apply In_get.
    + intros k v Hin nd nd' Hstep.
      pose proof (Hkids (k, v) Hin) as Hsh. simpl in Hsh.
      destruct (H k v Hin) as [Hv Hitems].
      apply walk_nested_result in Hstep
        as [[-> Hf] | (Hnest & v' & -> & Hchild)]; [left; now split|].
      right. split; [exact Hnest|]. exists v'. split; [reflexivity|].
      unfold shaped_child in *.
      destruct Hchild as [(d & -> & Hs & Hw) | (items & items' & -> & -> & Hm)].
      * rewrite Hs in *.
        destruct (walk_obj_inv _ _ Hw) as (m & m' & _ & _ & ->).
        now apply (Hv (JObj m')).
      * destruct (mem k structural_keys);
          [|destruct (mem k combinator_keys); [|reflexivity]];
          now apply (mapM_walk_sanitized items items' (Hitems _ eq_refl)).
    + intros k v Hk. destruct (is_nested_key k) eqn:Hnest.
      * left. rewrite (handle_keeps_children entries n k Hn Hnest) in Hk.
        apply get_In in Hk. apply (in_map fst) in Hk. exact Hk.
      * right. unfold shaped_child, is_nested_key in *.
        apply orb_false_iff in Hnest as [-> ->]. reflexivity.
    + assert (Hnd' : NoDup (PyDict.keys n')).
      { rewrite Hkeys. now apply (handled_NoDup entries). }
      assert (Ht : type_settled n' = true).
      { pose proof (handled_type_settled entries n Hn Htype) as Ht.
        unfold type_settled, PyDict.has in *.
        now rewrite !Hget by reflexivity. }
      assert (He : enum_settled n' = true).
      { destruct (handled_cases entries n Hn) as [He _].
        unfold enum_settled in *. now rewrite Hget by reflexivity. }
      simpl. rewrite Ht, He. simpl. apply forallb_forall.
      intros [k v] Hin. simpl. apply (Hall k v). now apply In_get.
Qed.

(** X9.  What the sanitizer returns for a schema-shaped tree is
    sanitized: on every node it visits, the type is not ["integer"], a
    type union has at least two members and lists neither ["null"] nor
    ["integer"], and an enum is not a list of integers. *)
Theorem sanitize_output_sanitized (s s' : json) :
  schema_shaped s = true -> sanitize s = Ok s' -> sanitized s' = true.
Proof. intros Hshape Hs. exact (walk_sanitized s s' Hshape Hs). Qed.

Lemma sanitize_output_sanitized_witness :
  sanitized Examples.nested_schema_sanitized = true.
Proof.
  apply (sanitize_output_sanitized Examples.nested_schema); reflexivity.
Defined.

End SanitizerLaws.

(** ** The sanitizer: what it leaves alone and where it raises *)

Module SanitizerEdges.
Import Sanitizer Shape Derived PyDictFacts SanitizerFacts.

Lemma forallb_weaken {A} (f g : A -> bool) l :
  (forall x, f x = true -> g x = true) ->
  forallb f l = true -> forallb g l = true.
Proof.
  intros Hfg. induction l as [|x l IH]; simpl; [reflexivity|].
  intros H. apply andb_true_iff in H as [Hx Hl].
  now rewrite (Hfg x Hx), IH.
Qed.

Lemma get_absent {V} (d : PyDict.t V) k :
  forallb (fun k' => negb (String.eqb k' k)) (PyDict.keys d) = true ->
  PyDict.get k d = None.
Proof.
  induction d as [|[k0 v0] d IH]; simpl; [reflexivity|].
  intros H. apply andb_true_iff in H as [H0 Hd].
  apply negb_true_iff in H0. rewrite H0. auto.
Qed.

Lemma walk_items_plain es : forall node,
  forallb (fun k => negb (is_nested_key k)) (PyDict.keys es) = true ->
  walk_items walk es node = Ok node.
Proof.
  induction es as [|[k v] es IH]; simpl; intros node H; [reflexivity|].
  apply andb_true_iff in H as [Hk Hes]. apply negb_true_iff in Hk.
  unfold walk_nested. unfold is_nested_key in Hk.
  apply orb_false_iff in Hk as [-> ->]. cbv beta iota delta [bind]. auto.
Qed.

Lemma walk_plain d :
  forallb plain_key (PyDict.keys d) = true -> walk (JObj d) = Ok (JObj d).
Proof.
  intros H.
  assert (Ht : PyDict.get "type" d = None).
  { apply get_absent. eapply forallb_weaken; [|exact H].
    intros k Hk. unfold plain_key in Hk.
    apply andb_true_iff in Hk as [Hk _]. now apply andb_true_iff in Hk as [Hk _]. }
  assert (He : PyDict.get "enum" d = None).
  { apply get_absent. eapply forallb_weaken; [|exact H].
    intros k Hk. unfold plain_key in Hk.
    apply andb_true_iff in Hk as [Hk _]. now apply andb_true_iff in Hk as [_ Hk]. }
  rewrite walk_obj. unfold handle_type. rewrite Ht.
  unfold handle_enum. rewrite He. cbv beta iota delta [bind].
  rewrite walk_items_plain; [reflexivity|].
  eapply forallb_weaken; [|exact H].
  intros k Hk. unfold plain_key in Hk. now apply andb_true_iff in Hk as [_ Hk].
Qed.

(** X10.  The walk does not reach the schemas of the properties.  An
    object schema whose property names are none of [type], [enum],
    [properties], [additionalProperties], [items], [oneOf], [anyOf],
    [allOf] is returned as it is, whatever the property schemas hold: a
    property typed ["integer"] stays typed ["integer"]. *)
Theorem sanitize_skips_property_schemas (props : dict) (required : json) :
  forallb plain_key (PyDict.keys props) = true ->
  sanitize (JObj [("type", JStr "object"); ("properties", JObj props);
                  ("required", required)])
  = Ok (JObj [("type", JStr "object"); ("properties", JObj props);
              ("required", required)]).
Proof.
  intros Hplain. unfold sanitize. rewrite walk_obj.
  change (handle_enum
            (handle_type [("type", JStr "object"); ("properties", JObj props);
                          ("required", required)]))
    with (Ok [("type", JStr "object"); ("properties", JObj props);
              ("required", required)] : res dict).
  cbv beta iota delta [bind walk_items].
  change (walk_nested walk "type" (JStr "object")
            [("type", JStr "object"); ("properties", JObj props);
             ("required", required)])
    with (Ok [("type", JStr "object"); ("properties", JObj props);
              ("required", required)] : res dict).
  cbv beta iota.
  assert (Hp : walk_nested walk "properties" (JObj props)
                 [("type", JStr "object"); ("properties", JObj props);
                  ("required", required)]
               = Ok [("type", JStr "object"); ("properties", JObj props);
                     ("required", required)]).
  { unfold walk_nested.
    change (mem "properties" structural_keys) with true. cbv iota.
    rewrite (walk_plain props Hplain). reflexivity. }
  rewrite Hp. reflexivity.
Qed.

Lemma sanitize_skips_property_schemas_witness :
  sanitize (JObj [("type", JStr "object");
                  ("properties",
                   JObj [("count", JObj [("type", JStr "integer")])]);
                  ("required", JArr [JStr "count"])])
  = Ok (JObj [("type", JStr "object");
              ("properties",
               JObj [("count", JObj [("type", JStr "integer")])]);
              ("required", JArr [JStr "count"])]).
Proof.
  apply (sanitize_skips_property_schemas
           [("count", JObj [("type", JStr "integer")])]
           (JArr [JStr "count"])).
  reflexivity.
Defined.

Lemma get_multipleOf_handle_type d v :
  PyDict.get "multipleOf" d = Some v ->
  PyDict.get "multipleOf" (handle_type d) = Some v.
Proof.
  intros H.
  assert (Hset : forall x, ensure_multipleOf (PyDict.set "type" x d)
                           = PyDict.set "type" x d).
  { intros x. apply ensure_multipleOf_id. rewrite has_set_other by congruence.
    unfold PyDict.has. now rewrite H. }
  assert (Hget : forall x, PyDict.get "multipleOf" (PyDict.set "type" x d)
                           = Some v).
  { intros x. rewrite get_set_other by congruence. exact H. }
  unfold handle_type.
  destruct (PyDict.get "type" d) as [[| | | |s|t|]|]; try exact H.
  - destruct (String.eqb s "integer"); [|exact H]. now rewrite Hset.
  - cbv zeta.
    match goal with
    | |- PyDict.get _ (if ?c then _ else _) = _ => destruct c
    end; now rewrite ?Hset.
Qed.

(** X11.  A [multipleOf] the node already has is never overwritten. *)
Theorem sanitize_keeps_multipleOf (d d' : dict) (v : json) :
  sanitize (JObj d) = Ok (JObj d') ->
  PyDict.get "multipleOf" d = Some v ->
  PyDict.get "multipleOf" d' = Some v.
Proof.
  unfold sanitize. intros Hw Hv.
  apply walk_obj_inv in Hw as (n & n' & Hn & Hn' & [= <-]).
  rewrite (walk_items_get d n d' "multipleOf" Hn') by reflexivity.
  destruct (handled_cases d n Hn) as [_ [-> | [fs ->]]].
  - now apply get_multipleOf_handle_type.
  - rewrite get_set_other by congruence. now apply get_multipleOf_handle_type.
Qed.

Lemma sanitize_keeps_multipleOf_witness :
  PyDict.get "multipleOf"
    [("type", JStr "number"); ("multipleOf", JInt 5)] = Some (JInt 5).
Proof.
  apply (sanitize_keeps_multipleOf
           [("type", JStr "integer"); ("multipleOf", JInt 5)]
           [("type", JStr "number"); ("multipleOf", JInt 5)] (JInt 5));
    reflexivity.
Defined.

Lemma has_set_mono {V} (d : PyDict.t V) k k' v :
  PyDict.has k d = true -> PyDict.has k (PyDict.set k' v d) = true.
Proof.
  intros H. destruct (String.eqb k' k) eqn:E.
  - apply String.eqb_eq in E. subst. apply has_set_same.
  - apply String.eqb_neq in E. now rewrite has_set_other.
Qed.

Lemma walk_items_keys es : forall node node',
  (forall k, In k (PyDict.keys es) -> PyDict.has k node = true) ->
  walk_items walk es node = Ok node' ->
  PyDict.keys node' = PyDict.keys node.
Proof.
  induction es as [|[k0 v0] es IH]; simpl; intros node node' Hin.
  - now intros [= <-].
  - destruct (walk_nested walk k0 v0 node) as [node1|] eqn:H1;
      cbv beta iota delta [bind]; [|discriminate].
    intros H.
    apply walk_nested_walk in H1 as [-> | [_ [v' ->]]].
    + apply (IH node node'); auto.
    + rewrite (IH (PyDict.set k0 v' node) node'); [| |exact H].
      * apply keys_set_present. apply Hin. now left.
      * intros k Hk. apply has_set_mono. apply Hin. now right.
Qed.

Lemma keys_ensure_multipleOf d :
  PyDict.keys (ensure_multipleOf d) = PyDict.keys d
  \/ PyDict.keys (ensure_multipleOf d) = PyDict.keys d ++ ["multipleOf"].
Proof.
  unfold ensure_multipleOf. destruct (PyDict.has "multipleOf" d) eqn:E.
  - now left.
  - right. now apply keys_set_absent.
Qed.

Lemma keys_handle_type d :
  PyDict.keys (handle_type d) = PyDict.keys d
  \/ PyDict.keys (handle_type d) = PyDict.keys d ++ ["multipleOf"].
Proof.
  assert (Hset : forall x, PyDict.has "type" d = true ->
                   PyDict.keys (PyDict.set "type" x d) = PyDict.keys d).
  { intros x Hw. now apply keys_set_present. }
  unfold handle_type.
  destruct (PyDict.get "type" d) as [[| | | |s|t|]|] eqn:E; try now left.
  - assert (Hh : PyDict.has "type" d = true)
      by (unfold PyDict.has; now rewrite E).
    destruct (String.eqb s "integer"); [|now left].
    destruct (keys_ensure_multipleOf (PyDict.set "type" (JStr "number") d))
      as [-> | ->]; rewrite (Hset _ Hh); tauto.
  - assert (Hh : PyDict.has "type" d = true)
      by (unfold PyDict.has; now rewrite E).
    cbv zeta.
    match goal with
    | |- context [if ?c then _ else _] => destruct c
    end.
    + match goal with
      | |- context [ensure_multipleOf ?n] =>
          destruct (keys_ensure_multipleOf n) as [-> | ->]
      end; rewrite (Hset _ Hh); tauto.
    + rewrite (Hset _ Hh). now left.
Qed.

(** X12.  The sanitizer removes no key and adds at most one: the keys of
    the node it returns are the keys of the node it was given, in the same
    order, possibly followed by [multipleOf].  In particular a [oneOf] or
    [anyOf] entry is never replaced by a merged node. *)
Theorem sanitize_keys (d : dict) (s' : json) :
  sanitize (JObj d) = Ok s' ->
  exists d',
    s' = JObj d'
    /\ (PyDict.keys d' = PyDict.keys d
        \/ PyDict.keys d' = PyDict.keys d ++ ["multipleOf"]).
Proof.
  unfold sanitize. intros Hw.
  apply walk_obj_inv in Hw as (n & n' & Hn & Hn' & ->).
  exists n'. split; [reflexivity|].
  assert (Hkn : PyDict.keys n = PyDict.keys (handle_type d)).
  { destruct (handled_cases d n Hn) as [_ [-> | [fs ->]]]; [reflexivity|].
    destruct (PyDict.has "enum" (handle_type d)) eqn:Hh;
      [now apply keys_set_present|].
    exfalso. unfold handle_enum in Hn. unfold PyDict.has in Hh.
    destruct (PyDict.get "enum" (handle_type d)) as [e|] eqn:He;
      [discriminate|].
    injection Hn as Hn. rewrite Hn in He.
    rewrite get_set_same in He. discriminate. }
  rewrite (walk_items_keys d n n'); [| |exact Hn'].
  - rewrite Hkn. apply keys_handle_type.
  - intros k Hk. apply has_keys. rewrite Hkn.
    destruct (keys_handle_type d) as [-> | ->]; [exact Hk|].
    apply in_or_app. now left.
Qed.

Lemma sanitize_keys_witness :
  exists d',
    JObj [("oneOf",
           JArr [JObj [("type", JStr "number"); ("multipleOf", JInt 1)];
                 JObj [("type", JStr "number")]])] = JObj d'
    /\ (PyDict.keys d' = ["oneOf"]
        \/ PyDict.keys d' = ["oneOf"] ++ ["multipleOf"]).
Proof.
  apply (sanitize_keys
           [("oneOf", JArr [JObj [("type", JStr "integer")];
                            JObj [("type", JStr "number")]])]).
  reflexivity.
Defined.

End SanitizerEdges.

(** ** The sanitizer: inputs on which it raises *)

Module SanitizerErrors.
Import Sanitizer Shape Derived PyDictFacts SanitizerFacts.

Lemma walk_items_raises es k v :
  In (k, v) es ->
  (forall node, exists e, walk_nested walk k v node = Raise e) ->
  forall node, exists e, walk_items walk es node = Raise e.
Proof.
  intros Hin Hraise. induction es as [|[k0 v0] es IH]; [destruct Hin|].
  intros node. simpl.
  destruct Hin as [[= -> ->] | Hin].
  - destruct (Hraise node) as [e ->]. exists e. reflexivity.
  - destruct (walk_nested walk k0 v0 node) as [node1|e];
      cbv beta iota delta [bind]; [now apply IH | now exists e].
Qed.

Lemma walk_raises d k v :
  In (k, v) d ->
  (forall node, exists e, walk_nested walk k v node = Raise e) ->
  exists e, sanitize (JObj d) = Raise e.
Proof.
  intros Hin Hraise. unfold sanitize. rewrite walk_obj.
  destruct (handle_enum (handle_type d)) as [n|e];
    cbv beta iota delta [bind]; [|now exists e].
  destruct (walk_items_raises d k v Hin Hraise n) as [e ->].
  now exists e.
Qed.

Lemma simplified_cases k :
  mem k simplified_keys = true -> k = "oneOf" \/ k = "anyOf".
Proof.
  intros H. apply ContextModeFacts.mem_In in H.
  destruct H as [<- | [<- | []]]; auto.
Qed.

(** The test on a pair of branches, as [walk_nested] runs it. *)
Lemma walk_nested_pair k a b node :
  mem k simplified_keys = true ->
  walk_nested walk k (JArr [a; b]) node
  = (a' <- walk a ;; b' <- walk b ;;
     ta <- item_type a' ;; tb <- item_type b' ;;
     same <- types_are_integer_number [ta; tb] ;;
     if same
     then Ok (merge_branches k [a'; b']
                             (PyDict.set k (JArr [a'; b']) node))
     else Ok (PyDict.set k (JArr [a'; b']) node)).
Proof.
  intros Hk. unfold walk_nested. rewrite Hk.
  destruct (simplified_cases k Hk) as [-> | ->];
    (change (mem _ structural_keys) with false;
     change (mem _ combinator_keys) with true; cbv iota;
     simpl mapM;
     destruct (walk a) as [a'|]; [|reflexivity];
     destruct (walk b) as [b'|]; [|reflexivity];
     cbv beta iota zeta delta [bind]; simpl;
     destruct (item_type a'); [|reflexivity];
     destruct (item_type b'); reflexivity).
Qed.

Lemma walk_keeps_leaf j j' : walk j = Ok j' -> is_dict j = false -> j' = j.
Proof.
  intros Hw Hd. destruct j; try discriminate; simpl in Hw; congruence.
Qed.

Lemma item_type_leaf j : is_dict j = false -> exists e, item_type j = Raise e.
Proof. destruct j; try discriminate; intros _; eexists; reflexivity. Qed.

(** X13.  A [oneOf] or [anyOf] with exactly two branches one of which is
    not a dictionary (the boolean schema [true], for one) makes the
    sanitizer raise: the branch has no method [get]. *)
Theorem sanitize_raises_on_non_dict_branch (d : dict) (k : string)
    (a b : json) :
  In (k, JArr [a; b]) d ->
  mem k simplified_keys = true ->
  is_dict a = false \/ is_dict b = false ->
  exists e, sanitize (JObj d) = Raise e.
Proof.
  intros Hin Hk Hleaf. apply (walk_raises d k (JArr [a; b]) Hin).
  intros node. rewrite (walk_nested_pair k a b node Hk).
  destruct (walk a) as [a'|e] eqn:Ha; [|now exists e].
  destruct (walk b) as [b'|e] eqn:Hb; [|now exists e].
  cbv beta iota delta [bind].
  destruct Hleaf as [Hl | Hl].
  - rewrite (walk_keeps_leaf a a' Ha Hl).
    destruct (item_type_leaf a Hl) as [e ->]. now exists e.
  - rewrite (walk_keeps_leaf b b' Hb Hl).
    destruct (item_type a') as [ta|e]; [|now exists e].
    destruct (item_type_leaf b Hl) as [e ->]. now exists e.
Qed.

Lemma sanitize_raises_on_non_dict_branch_witness :
  exists e,
    sanitize (JObj [("anyOf", JArr [JBool true;
                                    JObj [("type", JStr "string")]])])
    = Raise e.
Proof.
  apply (sanitize_raises_on_non_dict_branch _ "anyOf" (JBool true)
           (JObj [("type", JStr "string")])).
  - now left.
  - reflexivity.
  - now left.
Defined.

(** The exception of the example is the [AttributeError]. *)
Lemma boolean_branch_attribute_error :
  sanitize (JObj [("anyOf", JArr [JBool true;
                                  JObj [("type", JStr "string")]])])
  = Raise (AttributeError "object has no attribute 'get'").
Proof. reflexivity. Qed.

Lemma walk_union_typed j j' :
  walk j = Ok j' -> union_typed j = true ->
  exists d' t2, j' = JObj d' /\ PyDict.get "type" d' = Some (JArr t2).
Proof.
  destruct j as [| | | | | |d]; try discriminate.
  intros Hw Hu. apply walk_obj_inv in Hw as (n & n' & Hn & Hn' & ->).
  simpl in Hu.
  destruct (PyDict.get "type" d) as [[| | | | |t|]|] eqn:Ht; try discriminate.
  destruct (strip_union t) as [|y [|y' r]] eqn:Hs; try discriminate.
  exists n', (y :: y' :: r). split; [reflexivity|].
  rewrite (walk_items_get d n n' "type" Hn') by reflexivity.
  destruct (handled_type d n Hn) as [-> _].
  unfold handle_type. rewrite Ht. cbv zeta. rewrite Hs.
  match goal with
  | |- PyDict.get _ (if ?c then _ else _) = _ => destruct c
  end; rewrite ?get_ensure_multipleOf, get_set_same by congruence;
    reflexivity.
Qed.

(** X14.  A [oneOf] or [anyOf] with exactly two branches one of which is
    typed by a union that stays a union (two type names or more besides
    ["null"]) makes the sanitizer raise: the list of the union cannot be
    put into the set of types. *)
Theorem sanitize_raises_on_union_branch (d : dict) (k : string)
    (a b : json) :
  In (k, JArr [a; b]) d ->
  mem k simplified_keys = true ->
  union_typed a = true \/ union_typed b = true ->
  exists e, sanitize (JObj d) = Raise e.
Proof.
  intros Hin Hk Hunion. apply (walk_raises d k (JArr [a; b]) Hin).
  intros node. rewrite (walk_nested_pair k a b node Hk).
  destruct (walk a) as [a'|e] eqn:Ha; [|now exists e].
  destruct (walk b) as [b'|e] eqn:Hb; [|now exists e].
  cbv beta iota delta [bind].
  destruct (item_type a') as [ta|e] eqn:Hta; [|now exists e].
  destruct (item_type b') as [tb|e] eqn:Htb; [|now exists e].
  enough (Hh : forallb hashable [ta; tb] = false).
  { unfold types_are_integer_number. rewrite Hh. eexists. reflexivity. }
  destruct Hunion as [Hu | Hu].
  - destruct (walk_union_typed a a' Ha Hu) as (d' & t2 & -> & Ht).
    simpl in Hta. rewrite Ht in Hta. injection Hta as <-. reflexivity.
  - destruct (walk_union_typed b b' Hb Hu) as (d' & t2 & -> & Ht).
    simpl in Htb. rewrite Ht in Htb. injection Htb as <-.
    simpl. apply andb_false_r.
Qed.

Lemma sanitize_raises_on_union_branch_witness :
  exists e,
    sanitize
      (JObj [("anyOf",
              JArr [JObj [("type", JArr [JStr "string"; JStr "boolean"])];
                    JObj [("type", JStr "null")]])])
    = Raise e.
Proof.
  apply (sanitize_raises_on_union_branch _ "anyOf"
           (JObj [("type", JArr [JStr "string"; JStr "boolean"])])
           (JObj [("type", JStr "null")])).
  - now left.
  - reflexivity.
  - now left.
Defined.

Lemma mapM_py_float_raises l z e :
  forallb isinstance_int l = true ->
  In (JInt z) l -> float_of_Z z = Raise e ->
  mapM py_float l
  = Raise (OverflowError "int too large to convert to float").
Proof.
  intros Hall Hin Hz.
  assert (Hmsg : forall z' e', float_of_Z z' = Raise e' ->
                   e' = OverflowError "int too large to convert to float").
  { intros z' e'. unfold float_of_Z.
    destruct (binary_normalize prec emax z' 0 false); congruence. }
  induction l as [|x l IH]; [destruct Hin|].
  simpl in Hall. apply andb_true_iff in Hall as [Hx Hl]. simpl.
  destruct x; try discriminate; simpl.
  - destruct Hin as [Hin | Hin]; [discriminate|]. now rewrite IH.
  - destruct (float_of_Z z0) as [f|e'] eqn:Hz0; simpl.
    + destruct Hin as [[= ->] | Hin]; [congruence|]. now rewrite IH.
    + now rewrite (Hmsg z0 e' Hz0).
Qed.

(** X15.  An enum of integers one of which is too large for a binary64
    float makes the sanitizer raise [OverflowError]. *)
Theorem sanitize_raises_on_large_enum (d : dict) (v : json)
    (vs : list json) (z : Z) (e : exn) :
  PyDict.get "enum" d = Some (JArr (v :: vs)) ->
  forallb isinstance_int (v :: vs) = true ->
  In (JInt z) (v :: vs) ->
  float_of_Z z = Raise e ->
  sanitize (JObj d)
  = Raise (OverflowError "int too large to convert to float").
Proof.
  intros He Hall Hin Hz. unfold sanitize. rewrite walk_obj.
  unfold handle_enum. rewrite get_handle_type by congruence.
  rewrite He, Hall, (mapM_py_float_raises (v :: vs) z e Hall Hin Hz).
  reflexivity.
Qed.

Lemma sanitize_raises_on_large_enum_witness :
  sanitize (JObj [("enum", JArr [JInt 1; JInt (2 ^ 1024)])])
  = Raise (OverflowError "int too large to convert to float").
Proof.
  apply (sanitize_raises_on_large_enum _ (JInt 1) [JInt (2 ^ 1024)]
           (2 ^ 1024)
           (OverflowError "int too large to convert to float")).
  - reflexivity.
  - reflexivity.
  - right. now left.
  - vm_compute. reflexivity.
Defined.

End SanitizerErrors.

(** ** Contexts, modes and the agent: further laws *)

Module PolicyLaws.
Import Tools ContextMode Agent.

Lemma load_named_returns {T} is_json_file path_str (read_as : string -> res T)
    builtins what What fallback arg d :
  PyDict.get fallback builtins = Some d ->
  (PyDict.get arg builtins = None -> exists b, is_json_file arg = Ok b) ->
  (forall e, read_as arg = Raise e -> is_Exception e = true) ->
  exists c logs,
    load_named is_json_file path_str read_as builtins what What fallback arg
    = (Ok c, logs)
    /\ ((PyDict.get arg builtins = Some c /\ logs = [])
        \/ (PyDict.get arg builtins = None /\ is_json_file arg = Ok true
            /\ read_as arg = Ok c /\ logs = [])
        \/ (PyDict.get arg builtins = None /\ c = d
            /\ In (log_warning (What ^ " '" ^ arg ^ "' not found, using "
                                ^ fallback)) logs)).
Proof.
  intros Hd Htest Hexc. unfold load_named.
  destruct (PyDict.get arg builtins) as [preset|] eqn:Harg.
  - exists preset, []. split; [reflexivity | now left].
  - rewrite Hd. destruct (Htest eq_refl) as [b Hb]. rewrite Hb.
    destruct b.
    + destruct (read_as arg) as [loaded|e] eqn:Hr.
      * exists loaded, []. split; [reflexivity|]. right. left. tauto.
      * rewrite (Hexc e eq_refl). eexists _, _. split; [reflexivity|].
        right. right. split; [reflexivity|]. split; [reflexivity|].
        apply in_or_app. right. now left.
    + eexists _, _. split; [reflexivity|].
      right. right. split; [reflexivity|]. split; [reflexivity|]. now left.
Qed.

(** X16.  Once the file test has answered, [load] returns an instance for
    every string, as long as reading a file raises nothing but instances
    of [Exception]: the preset of that name; or, for a name that is no
    preset, what the JSON file of that name holds; or the fallback, with
    the warning logged.  For a preset name the file test is not run and
    nothing is logged. *)
Theorem load_always_returns (is_json_file : string -> res bool)
    (path_str : string -> string)
    (read_context : string -> res SerenaAgentContext)
    (read_mode : string -> res SerenaAgentMode) (arg : string) :
  ((PyDict.get arg builtin_contexts = None ->
    exists b, is_json_file arg = Ok b) ->
   (forall e, read_context arg = Raise e -> is_Exception e = true) ->
   exists c logs,
     load_context is_json_file path_str read_context (inl arg) = (Ok c, logs)
     /\ ((PyDict.get arg builtin_contexts = Some c /\ logs = [])
         \/ (PyDict.get arg builtin_contexts = None
             /\ is_json_file arg = Ok true
             /\ read_context arg = Ok c /\ logs = [])
         \/ (PyDict.get arg builtin_contexts = None
             /\ c = Examples.default_context
             /\ In (log_warning ("Context '" ^ arg
                                 ^ "' not found, using default")) logs)))
  /\ ((PyDict.get arg builtin_modes = None ->
       exists b, is_json_file arg = Ok b) ->
      (forall e, read_mode arg = Raise e -> is_Exception e = true) ->
      exists c logs,
        load_mode is_json_file path_str read_mode (inl arg) = (Ok c, logs)
        /\ ((PyDict.get arg builtin_modes = Some c /\ logs = [])
            \/ (PyDict.get arg builtin_modes = None
                /\ is_json_file arg = Ok true
                /\ read_mode arg = Ok c /\ logs = [])
            \/ (PyDict.get arg builtin_modes = None
                /\ c = Examples.interactive_mode
                /\ In (log_warning ("Mode '" ^ arg
                                    ^ "' not found, using interactive"))
                      logs))).
Proof.
  split; intros Htest Hexc; simpl.
  - apply (load_named_returns is_json_file path_str read_context
             builtin_contexts "context" "Context" "default" arg
             Examples.default_context eq_refl Htest Hexc).
  - apply (load_named_returns is_json_file path_str read_mode
             builtin_modes "mode" "Mode" "interactive" arg
             Examples.interactive_mode eq_refl Htest Hexc).
Qed.

Lemma load_always_returns_witness :
  exists c logs,
    load_context Examples.only_broken (fun p => p) Examples.read_broken
                 (inl "broken.json") = (Ok c, logs)
    /\ ((PyDict.get "broken.json" builtin_contexts = Some c /\ logs = [])
        \/ (PyDict.get "broken.json" builtin_contexts = None
            /\ Examples.only_broken "broken.json" = Ok true
            /\ Examples.read_broken "broken.json" = Ok c /\ logs = [])
        \/ (PyDict.get "broken.json" builtin_contexts = None
            /\ c = Examples.default_context
            /\ In (log_warning ("Context '" ^ "broken.json"
                                ^ "' not found, using default")) logs)).
Proof.
  apply (proj1 (load_always_returns Examples.only_broken (fun p => p)
                  Examples.read_broken Examples.read_broken "broken.json")).
  - intros _. exists true. reflexivity.
  - intros e [= <-]. reflexivity.
Defined.

Lemma In_flat_map_log {A} (f : A -> list log_record) l a r :
  In a l -> In r (f a) -> In r (flat_map f l).
Proof. intros Ha Hr. apply in_flat_map. eauto. Qed.

(** X17.  Naming a tool the registry does not hold, in
    [SerenaConfig.tools] or through the table of a mode, registers
    nothing: loading the tools logs the warning "Tool not found" for it,
    and the registry of the agent is the fresh one. *)
Theorem unknown_tool_only_warns (config : SerenaConfig) (x : string) :
  get_tool x (fst new_ToolRegistry) = None ->
  In x (config_tools config)
  \/ (exists m l, In m (config_modes config)
                  /\ PyDict.get (mode_name m) mode_tools = Some l
                  /\ In x l) ->
  In (log_warning ("Tool not found: " ^ x)) (snd (new_SerenaAgent config))
  /\ tool_registry (fst (new_SerenaAgent config)) = fst new_ToolRegistry
  /\ get_tool x (tool_registry (fst (new_SerenaAgent config))) = None.
Proof.
  intros Hx Hnamed.
  assert (Hlogs : snd (new_SerenaAgent config)
            = snd new_ToolRegistry ++ _load_tools (fst (new_SerenaAgent config))).
  { unfold new_SerenaAgent. destruct new_ToolRegistry. reflexivity. }
  assert (Hreg : tool_registry (fst (new_SerenaAgent config))
                 = fst new_ToolRegistry).
  { unfold new_SerenaAgent. destruct new_ToolRegistry. reflexivity. }
  assert (Hmodes : modes (fst (new_SerenaAgent config)) = config_modes config).
  { unfold new_SerenaAgent. destruct new_ToolRegistry. reflexivity. }
  assert (Hcfg : Agent.config (fst (new_SerenaAgent config)) = config).
  { unfold new_SerenaAgent. destruct new_ToolRegistry. reflexivity. }
  split; [|split; [exact Hreg | now rewrite Hreg]].
  assert (Hwarn : In (log_warning ("Tool not found: " ^ x))
                     (_load_tool x (fst (new_SerenaAgent config)))).
  { unfold _load_tool. rewrite Hreg, Hx. now left. }
  rewrite Hlogs. apply in_or_app. right. unfold _load_tools.
  apply in_or_app. right. apply in_or_app.
  destruct Hnamed as [Hin | (m & l & Hm & Hl & Hin)].
  - right. rewrite Hcfg.
    exact (In_flat_map_log _ _ x _ Hin Hwarn).
  - left. rewrite Hmodes.
    apply (In_flat_map_log _ _ m _ Hm). unfold _load_mode_tools.
    rewrite Hl. exact (In_flat_map_log _ _ x _ Hin Hwarn).
Qed.

Lemma unknown_tool_only_warns_witness :
  In (log_warning ("Tool not found: " ^ "ask_user"))
     (snd (new_SerenaAgent Examples.default_config))
  /\ tool_registry (fst (new_SerenaAgent Examples.default_config))
     = fst new_ToolRegistry
  /\ get_tool "ask_user"
       (tool_registry (fst (new_SerenaAgent Examples.default_config)))
     = None.
Proof.
  apply (unknown_tool_only_warns Examples.default_config "ask_user").
  - reflexivity.
  - right. exists Examples.interactive_mode, ["ask_user"; "show_message"].
    split; [now left|]. split; [reflexivity | now left].
Defined.

End PolicyLaws.

(** ** The protocol adapter: further laws *)

Module DescriptorLaws.
Import Tools PyDictFacts.

(** X18.  The sanitizer leaves the descriptor of every tool as it is:
    the keys at the top of a descriptor are [name], [description] and
    [parameters], none of which the walk handles or descends into.  So a
    parameter declared [int] is advertised as ["integer"], without
    [multipleOf], after sanitizing as before. *)
Theorem sanitize_keeps_tool_schema (tool : Tool) (p : ToolParameter) :
  NoDup (map param_name (_parameters tool)) ->
  In p (_parameters tool) ->
  param_type p = PyInt ->
  Sanitizer.sanitize (get_schema tool) = Ok (get_schema tool)
  /\ exists params props,
       get_schema tool
       = JObj [("name", JStr (name tool));
               ("description", JStr (description tool));
               ("parameters", JObj params)]
       /\ PyDict.get "properties" params = Some (JObj props)
       /\ PyDict.get (param_name p) props
          = Some (JObj [("type", JStr "integer");
                        ("description", JStr (param_description p))]).
Proof.
  intros Hnd Hin Hty. split; [reflexivity|].
  eexists _, _. split; [reflexivity|]. split; [reflexivity|].
  rewrite (ValidationLaws.fold_set_fresh param_name
             (fun q => JObj [("type", JStr (_get_json_type (param_type q)));
                             ("description", JStr (param_description q))])
             (_parameters tool) []) by exact Hnd.
  cbn [app]. apply In_get.
  - unfold PyDict.keys. rewrite map_map. exact Hnd.
  - apply in_map_iff. exists p. split; [|exact Hin].
    now rewrite Hty.
Qed.

Lemma sanitize_keeps_tool_schema_witness :
  Sanitizer.sanitize (get_schema Examples.head_tool)
  = Ok (get_schema Examples.head_tool)
  /\ exists params props,
       get_schema Examples.head_tool
       = JObj [("name", JStr "head");
               ("description", JStr "First lines of a file");
               ("parameters", JObj params)]
       /\ PyDict.get "properties" params = Some (JObj props)
       /\ PyDict.get "lines" props
          = Some (JObj [("type", JStr "integer");
                        ("description", JStr "Number of lines")]).
Proof.
  apply (sanitize_keeps_tool_schema Examples.head_tool
           (mk_param "lines" PyInt "Number of lines" false (JInt 10))).
  - apply (SanitizerFacts.distinct_NoDup
             (map param_name (_parameters Examples.head_tool))).
    reflexivity.
  - simpl. right. now left.
  - reflexivity.
Defined.

End DescriptorLaws.

(** ** The sanitizer: the rewriting of types *)

Module SanitizerTypes.
Import Sanitizer Shape Derived PyDictFacts SanitizerFacts.

Lemma sanitize_type_of d d' :
  sanitize (JObj d) = Ok (JObj d') ->
  PyDict.get "type" d' = PyDict.get "type" (handle_type d)
  /\ (PyDict.get "multipleOf" d' = PyDict.get "multipleOf" (handle_type d)).
Proof.
  unfold sanitize. intros Hw.
  apply walk_obj_inv in Hw as (n & n' & Hn & Hn' & [= <-]).
  rewrite !(walk_items_get d n d' _ Hn') by reflexivity.
  destruct (handled_cases d n Hn) as [_ [-> | [fs ->]]]; [tauto|].
  rewrite !get_set_other by congruence. tauto.
Qed.

(** X19.  A node typed ["integer"] comes back typed ["number"], with
    [multipleOf: 1] when it had no [multipleOf]; a node typed by any other
    string keeps its type. *)
Theorem sanitize_scalar_type (d d' : dict) (s : string) :
  sanitize (JObj d) = Ok (JObj d') ->
  PyDict.get "type" d = Some (JStr s) ->
  PyDict.get "type" d'
  = Some (JStr (if String.eqb s "integer" then "number" else s))
  /\ (String.eqb s "integer" = true ->
      PyDict.get "multipleOf" d = None ->
      PyDict.get "multipleOf" d' = Some (JInt 1))
  /\ (String.eqb s "integer" = false ->
      PyDict.get "multipleOf" d' = PyDict.get "multipleOf" d).
Proof.
  intros Hs Ht. destruct (sanitize_type_of d d' Hs) as [-> ->].
  unfold handle_type. rewrite Ht.
  destruct (String.eqb s "integer") eqn:E.
  - split; [|split; [|discriminate]].
    + rewrite get_ensure_multipleOf, get_set_same by congruence. reflexivity.
    + intros _ Hm. unfold ensure_multipleOf, PyDict.has.
      rewrite get_set_other by congruence. rewrite Hm.
      apply get_set_same.
  - split; [exact Ht|]. split; [discriminate | reflexivity].
Qed.

Lemma sanitize_scalar_type_witness :
  PyDict.get "type" [("type", JStr "number"); ("multipleOf", JInt 1)]
  = Some (JStr (if String.eqb "integer" "integer" then "number"
                else "integer"))
  /\ (String.eqb "integer" "integer" = true ->
      PyDict.get "multipleOf" [("type", JStr "integer")] = None ->
      PyDict.get "multipleOf" [("type", JStr "number"); ("multipleOf", JInt 1)]
      = Some (JInt 1))
  /\ (String.eqb "integer" "integer" = false ->
      PyDict.get "multipleOf" [("type", JStr "number"); ("multipleOf", JInt 1)]
      = PyDict.get "multipleOf" [("type", JStr "integer")]).
Proof.
  apply (sanitize_scalar_type [("type", JStr "integer")]
           [("type", JStr "number"); ("multipleOf", JInt 1)] "integer");
    reflexivity.
Defined.

(** X20.  A type union from which dropping ["null"] leaves one member
    collapses to that member, ["integer"] becoming ["number"]; a union of
    nothing but ["null"] becomes ["object"]. *)
Theorem sanitize_nullable_type (d d' : dict) (t : list json) :
  sanitize (JObj d) = Ok (JObj d') ->
  PyDict.get "type" d = Some (JArr t) ->
  (forall x, filter (fun y => negb (is_str "null" y)) t = [x] ->
             PyDict.get "type" d'
             = Some (if is_str "integer" x then JStr "number" else x))
  /\ (filter (fun y => negb (is_str "null" y)) t = [] ->
      PyDict.get "type" d' = Some (JStr "object")).
Proof.
  intros Hs Ht. destruct (sanitize_type_of d d' Hs) as [-> _].
  assert (H : forall x c,
             PyDict.get "type"
               (if c : bool then ensure_multipleOf (PyDict.set "type" x d)
                else PyDict.set "type" x d) = Some x).
  { intros x []; rewrite ?get_ensure_multipleOf, get_set_same by congruence;
      reflexivity. }
  unfold handle_type. rewrite Ht. cbv zeta. rewrite H.
  unfold strip_union. split.
  - intros x ->. reflexivity.
  - intros ->. reflexivity.
Qed.

Lemma sanitize_nullable_type_witness :
  (forall x,
      filter (fun y => negb (is_str "null" y)) [JStr "integer"; JStr "null"]
      = [x] ->
      PyDict.get "type" [("type", JStr "number"); ("multipleOf", JInt 1)]
      = Some (if is_str "integer" x then JStr "number" else x))
  /\ (filter (fun y => negb (is_str "null" y)) [JStr "integer"; JStr "null"]
      = [] ->
      PyDict.get "type" [("type", JStr "number"); ("multipleOf", JInt 1)]
      = Some (JStr "object")).
Proof.
  apply (sanitize_nullable_type
           [("type", JArr [JStr "integer"; JStr "null"])]
           [("type", JStr "number"); ("multipleOf", JInt 1)]
           [JStr "integer"; JStr "null"]); reflexivity.
Defined.

(** X21.  Apart from [type], [enum], [multipleOf] and the keys it descends
    into, the sanitizer changes no entry of a node: a description, a
    title, a default or a [required] list comes back as it was. *)
Theorem sanitize_keeps_plain_entries (d d' : dict) (k : string) :
  sanitize (JObj d) = Ok (JObj d') ->
  plain_key k = true -> k <> "multipleOf" ->
  PyDict.get k d' = PyDict.get k d.
Proof.
  unfold sanitize. intros Hw Hk Hm.
  apply walk_obj_inv in Hw as (n & n' & Hn & Hn' & [= <-]).
  unfold plain_key in Hk. apply andb_true_iff in Hk as [Hk Hnest].
  apply andb_true_iff in Hk as [Ht He].
  apply negb_true_iff in Ht, He, Hnest.
  apply String.eqb_neq in Ht, He.
  rewrite (walk_items_get d n d' k Hn' Hnest).
  now apply (handled_get d n Hn).
Qed.

Lemma sanitize_keeps_plain_entries_witness :
  PyDict.get "description"
    [("type", JStr "number"); ("description", JStr "How many");
     ("multipleOf", JInt 1)]
  = PyDict.get "description"
      [("type", JStr "integer"); ("description", JStr "How many")].
Proof.
  apply (sanitize_keeps_plain_entries
           [("type", JStr "integer"); ("description", JStr "How many")]
           [("type", JStr "number"); ("description", JStr "How many");
            ("multipleOf", JInt 1)] "description");
    [reflexivity | reflexivity | discriminate].
Defined.

End SanitizerTypes.

(** ** The command line *)
